(** * EnOcean Equipment Profiles: the resolver and the bit-level codec

    A shallow embedding of [enocean/protocol/eep.py] (class [EEP]) and the
    properties of its profile resolver ([find_profile]), of its bitfield
    codec ([_get_raw], [_set_raw]) and of its decode path ([get_values]).

    The profile catalogue is an [xml.etree.ElementTree] document: elements
    carry a tag, a dictionary of string attributes, an optional text and an
    ordered list of children.  Python exceptions are modelled by the error
    type [exn]; a list mutated in place is modelled by threading the list
    through the call.  Logging is not modelled. *)

From Stdlib Require Import ZArith String Ascii List Floats DecimalString Lia.
From Stdlib Require Import DecimalPos.
From stdpp Require Import gmap strings list.

Set Warnings "-register-all".

Open Scope Z_scope.

(** ** Exceptions *)

(** The Python exceptions the code can raise.  [Unmodelled] marks an input of
    a builtin ([int], [float], [str.format]) that lies outside the fragment
    of that builtin described here: the model says nothing about what Python
    does there. *)
Inductive exn : Type :=
  | TypeError
  | ValueError
  | IndexError
  | AttributeError
  | ZeroDivisionError
  | Unmodelled.

Inductive result (A : Type) : Type :=
  | Ok (a : A)
  | Raise (e : exn).

Arguments Ok {A} a.
Arguments Raise {A} e.

Definition bind {A B : Type} (c : result A) (k : A -> result B) : result B :=
  match c with
  | Ok a => k a
  | Raise e => Raise e
  end.

Notation "x <- c ;; k" := (bind c (fun x => k))
  (at level 100, c at next level, right associativity).

Definition is_ok {A : Type} (c : result A) : bool :=
  match c with Ok _ => true | Raise _ => false end.

(** ** Python builtins used by the module *)

Module Py.

(** ['%s' % n] and [str(n)] for an integer [n]. *)
Definition str_of_int (n : Z) : string :=
  NilZero.string_of_int (Z.to_int n).

Definition is_digit (c : ascii) : bool :=
  let n := nat_of_ascii c in ((48 <=? n) && (n <=? 57))%nat.

Definition digit_value (c : ascii) : Z := Z.of_nat (nat_of_ascii c) - 48.

(** Characters that make [int(s)] or [float(s)] leave the plain fragment:
    white space and control characters (stripped by Python), the
    underscore (a digit separator) and non-ASCII characters (Unicode
    digits and spaces). *)
Definition outside_plain (c : ascii) : bool :=
  let n := nat_of_ascii c in ((n <=? 32) || (127 <=? n) || (n =? 95))%nat.

Definition is_letter (c : ascii) : bool :=
  let n := nat_of_ascii c in
  (((65 <=? n) && (n <=? 90)) || ((97 <=? n) && (n <=? 122)))%nat.

Fixpoint string_exists (p : ascii -> bool) (s : string) : bool :=
  match s with
  | EmptyString => false
  | String c r => p c || string_exists p r
  end.

(** Value of a non-empty run of decimal digits, read left to right. *)
Fixpoint digits_from (acc : Z) (s : string) : option Z :=
  match s with
  | EmptyString => Some acc
  | String c r =>
      if is_digit c then digits_from (10 * acc + digit_value c) r else None
  end.

Definition unsigned_decimal (s : string) : option Z :=
  match s with
  | EmptyString => None
  | _ => digits_from 0 s
  end.

Definition signed_decimal (s : string) : option Z :=
  match s with
  | String "-" r => Z.opp <$> unsigned_decimal r
  | String "+" r => unsigned_decimal r
  | _ => unsigned_decimal s
  end.

(** [int(s)] for a string [s]: an optional sign and decimal digits give
    the integer, any other string of plain characters raises
    [ValueError]. *)
Definition int_of_str (s : string) : result Z :=
  match signed_decimal s with
  | Some n => Ok n
  | None => if string_exists outside_plain s then Raise Unmodelled
            else Raise ValueError
  end.

(** [int(x)] where [x] is the result of [element.get(key)]: [int(None)]
    raises [TypeError]. *)
Definition int_of (x : option string) : result Z :=
  match x with
  | None => Raise TypeError
  | Some s => int_of_str s
  end.

(** [int(element.get(key, -1))]: the default is the integer [-1]. *)
Definition int_default_m1 (x : option string) : result Z :=
  match x with
  | None => Ok (-1)
  | Some s => int_of_str s
  end.

(** [int(s, 2)] for a string of binary digits; the empty string raises
    [ValueError].  Only strings over ['0'] and ['1'] are described. *)
Fixpoint binary_from (acc : Z) (s : string) : result Z :=
  match s with
  | EmptyString => Ok acc
  | String "0" r => binary_from (2 * acc) r
  | String "1" r => binary_from (2 * acc + 1) r
  | String _ _ => Raise Unmodelled
  end.

Definition int_base2 (s : string) : result Z :=
  match s with
  | EmptyString => Raise ValueError
  | _ => binary_from 0 s
  end.

(** [''.join(parts)] *)
Definition join (parts : list string) : string :=
  fold_right String.append EmptyString parts.

(** [float(n)] for a non-negative integer below 2^63, as the arithmetic
    [n - x] with a float [x] converts [n]. *)
Definition float_of_int (n : Z) : result float :=
  if (0 <=? n) && (n <? 2 ^ 63) then Ok (PrimFloat.of_uint63 (Uint63.of_Z n))
  else Raise Unmodelled.

(** Digits of a decimal literal: the integer made of all digits and the
    number of digits after the point. *)
Fixpoint decimal_from (seen_point : bool) (mant : Z) (frac digits : nat)
    (s : string) : option (Z * nat * nat) :=
  match s with
  | EmptyString => Some (mant, frac, digits)
  | String c r =>
      if is_digit c then
        decimal_from seen_point (10 * mant + digit_value c)
          (if seen_point then S frac else frac) (S digits) r
      else if Ascii.eqb c "." && negb seen_point then
        decimal_from true mant frac digits r
      else None
  end.

(** The value of an unsigned decimal literal with digits below 2^53 and at
    most 18 digits after the point: both the digits and the power of ten
    are then integers that a 63-bit word and a double hold exactly.  Longer
    literals are not described. *)
Definition float_magnitude (s : string) : result float :=
  match decimal_from false 0 0%nat 0%nat s with
  | Some (mant, frac, digits) =>
      if (digits =? 0)%nat then Raise ValueError
      else if (mant <? 2 ^ 53) && (frac <=? 18)%nat then
        Ok (PrimFloat.of_uint63 (Uint63.of_Z mant)
            / PrimFloat.of_uint63 (Uint63.of_Z (10 ^ Z.of_nat frac)))%float
      else Raise Unmodelled
  | None =>
      if string_exists (fun c => outside_plain c || is_letter c) s
      then Raise Unmodelled else Raise ValueError
  end.

(** [float(s)] for the text [s] of an element: a plain decimal literal
    whose digits fit a double exactly is the quotient of two exactly
    represented integers, which IEEE division rounds correctly.
    [float(None)] raises [TypeError]. *)
Definition float_of (x : option string) : result float :=
  match x with
  | None => Raise TypeError
  | Some (String "-" r) => m <- float_magnitude r ;; Ok (- m)%float
  | Some (String "+" r) => float_magnitude r
  | Some s => float_magnitude s
  end.

(** [a / b] on floats raises [ZeroDivisionError] when [b] is zero. *)
Definition float_div (a b : float) : result float :=
  if PrimFloat.eqb b 0%float then Raise ZeroDivisionError
  else Ok (a / b)%float.

(** [template.format(value=n)]: literal text, the escapes [{{] and [}}],
    and the replacement field [{value}].  A single [}] raises
    [ValueError]; other replacement fields are not described. *)
Fixpoint format_value (template : string) (n : string) : result string :=
  match template with
  | EmptyString => Ok EmptyString
  | String "{" (String "{" r) => t <- format_value r n ;; Ok (String "{" t)
  | String "}" (String "}" r) => t <- format_value r n ;; Ok (String "}" t)
  | String "{" (String "v" (String "a" (String "l" (String "u"
      (String "e" (String "}" r)))))) =>
      t <- format_value r n ;; Ok (n +:+ t)
  | String "{" _ => Raise Unmodelled
  | String "}" _ => Raise ValueError
  | String c r => t <- format_value r n ;; Ok (String c t)
  end.

(** [x.format(value=n)] where [x] comes from [element.get(key)]: [None]
    has no [format] attribute. *)
Definition format (x : option string) (n : Z) : result string :=
  match x with
  | None => Raise AttributeError
  | Some template => format_value template (str_of_int n)
  end.

(** Index normalisation of a slice bound. *)
Definition clamp (len i : Z) : Z :=
  if i <? 0 then Z.max 0 (i + len) else Z.min i len.

(** [l[start:stop]] *)
Definition slice {A : Type} (l : list A) (start stop : Z) : list A :=
  let len := Z.of_nat (length l) in
  let lo := clamp len start in
  let hi := clamp len stop in
  take (Z.to_nat (hi - lo)) (drop (Z.to_nat lo) l).

(** [l[i] = x]: a negative index counts from the end, an index out of
    range raises [IndexError]. *)
Definition setitem {A : Type} (l : list A) (i : Z) (x : A) : result (list A) :=
  let len := Z.of_nat (length l) in
  let j := if i <? 0 then i + len else i in
  if (0 <=? j) && (j <? len) then Ok (<[Z.to_nat j := x]> l)
  else Raise IndexError.

(** [range(n)] *)
Definition range (n : Z) : list Z := Z.of_nat <$> seq 0 (Z.to_nat n).

(** [n in range(lo, hi)] *)
Definition in_range (n lo hi : Z) : bool := (lo <=? n) && (n <? hi).

End Py.

(** ** ElementTree elements *)

Inductive Element : Type :=
  mkElement (tag : string) (attrib : gmap string string)
            (text : option string) (children : list Element).

Module ET.

Definition tag (e : Element) : string :=
  let 'mkElement t _ _ _ := e in t.
Definition attrib (e : Element) : gmap string string :=
  let 'mkElement _ a _ _ := e in a.
Definition text (e : Element) : option string :=
  let 'mkElement _ _ x _ := e in x.
Definition children (e : Element) : list Element :=
  let 'mkElement _ _ _ c := e in c.

(** [e.get(key)] *)
Definition get (e : Element) (key : string) : option string :=
  attrib e !! key.

(** [e.get(key, default)] with a string default *)
Definition get_default (e : Element) (key default : string) : string :=
  match get e key with
  | Some v => v
  | None => default
  end.

Definition has_tag (t : string) (e : Element) : bool :=
  String.eqb (tag e) t.

(** The predicate [tag[@key="value"]] of a path. *)
Definition has_tag_attr (t key value : string) (e : Element) : bool :=
  has_tag t e &&
  match get e key with
  | Some v => String.eqb v value
  | None => false
  end.

(** [e.find('tag')]: the first child with that tag. *)
Definition find (e : Element) (t : string) : option Element :=
  List.find (has_tag t) (children e).

(** [e.find('tag[@key="value"]')] *)
Definition find_attr (e : Element) (t key value : string) : option Element :=
  List.find (has_tag_attr t key value) (children e).

(** [e.findall('tag')] *)
Definition findall (e : Element) (t : string) : list Element :=
  List.filter (has_tag t) (children e).

End ET.

(** ** Decoded values *)

(** The [value] of a decoded field: a float for a numeric field, a string
    for an enumeration, a boolean for a status bit. *)
Inductive value : Type :=
  | VFloat (x : float)
  | VStr (s : string)
  | VBool (b : bool).

(** The dictionary stored under a field's shortcut. *)
Record entry : Type := mkEntry {
  description : option string;
  unit : option string;
  value_of : value;
  raw_value_of : Z
}.

(** An [OrderedDict] keyed by shortcuts ([element.get('shortcut')] is [None]
    when the attribute is missing): the items in insertion order. *)
Definition ordered_dict : Type := list (option string * entry).

Module OD.

(** [od[k] = v], which is what [od.update({k: v})] does: an existing key
    keeps its place and takes the new value, a new key goes last. *)
Fixpoint set (k : option string) (v : entry) (od : ordered_dict) : ordered_dict :=
  match od with
  | [] => [(k, v)]
  | (k', v') :: rest =>
      if decide (k = k') then (k, v) :: rest else (k', v') :: set k v rest
  end.

Definition update (od : ordered_dict) (item : option string * entry) : ordered_dict :=
  set item.1 item.2 od.

Fixpoint get (k : option string) (od : ordered_dict) : option entry :=
  match od with
  | [] => None
  | (k', v') :: rest => if decide (k = k') then Some v' else get k rest
  end.

Definition keys (od : ordered_dict) : list (option string) := fst <$> od.

End OD.

(** ** The class [EEP] *)

Record EEP : Type := mkEEP {
  init_ok : bool;
  telegrams : gmap Z (gmap Z (gmap Z Element))
}.

(** Truth value and ['%s'] rendering of an optional integer argument
    ([direction], [command]). *)
Definition truth (x : option Z) : bool :=
  match x with
  | None => false
  | Some n => negb (n =? 0)
  end.

Definition percent_s (x : option Z) : string :=
  match x with
  | None => "None"
  | Some n => Py.str_of_int n
  end.

Definition bit_digit (digit : bool) : string := if digit then "1" else "0".

(** [EEP._get_raw] *)
Definition _get_raw (source : Element) (bitarray : list bool) : result Z :=
  offset <- Py.int_of (ET.get source "offset") ;;
  size <- Py.int_of (ET.get source "size") ;;
  Py.int_base2 (Py.join (bit_digit <$> Py.slice bitarray offset (offset + size))).

(** The bit stored for [digit] by [EEP._set_raw]:
    [(raw_value >> (size-digit-1)) & 0x01 != 0]. *)
Definition written_bit (raw_value size digit : Z) : bool :=
  negb (Z.land (Z.shiftr raw_value (size - digit - 1)) 1 =? 0).

(** Value of a list of bits, most significant first. *)
Definition bits_value (digits : list bool) : Z :=
  fold_left (fun acc d => 2 * acc + Z.b2z d) digits 0.

(** The loop of [EEP._set_raw].  The list is mutated in place: the result is
    the content of the list when the call ends and the exception, if one was
    raised. *)
Fixpoint _set_raw_loop (offset size raw_value : Z) (digits : list Z)
    (bitarray : list bool) : list bool * option exn :=
  match digits with
  | [] => (bitarray, None)
  | digit :: rest =>
      match Py.setitem bitarray (offset + digit)
              (written_bit raw_value size digit) with
      | Ok bitarray' => _set_raw_loop offset size raw_value rest bitarray'
      | Raise e => (bitarray, Some e)
      end
  end.

(** [EEP._set_raw] *)
Definition _set_raw (target : Element) (raw_value : Z) (bitarray : list bool)
    : list bool * option exn :=
  match Py.int_of (ET.get target "offset") with
  | Raise e => (bitarray, Some e)
  | Ok offset =>
      match Py.int_of (ET.get target "size") with
      | Raise e => (bitarray, Some e)
      | Ok size =>
          _set_raw_loop offset size raw_value (Py.range size) bitarray
      end
  end.

(** [EEP._get_rangeitem]; the result [None] is the implicit return at the
    end of the loop. *)
Fixpoint _get_rangeitem_loop (rangeitems : list Element) (raw_value : Z)
    : result (option Element) :=
  match rangeitems with
  | [] => Ok None
  | rangeitem :: rest =>
      start <- Py.int_default_m1 (ET.get rangeitem "start") ;;
      stop <- Py.int_default_m1 (ET.get rangeitem "end") ;;
      if Py.in_range raw_value start (stop + 1) then Ok (Some rangeitem)
      else _get_rangeitem_loop rest raw_value
  end.

Definition _get_rangeitem (source : Element) (raw_value : Z) : result (option Element) :=
  _get_rangeitem_loop (ET.findall source "rangeitem") raw_value.

(** [parent.find(tag).text] where [parent] may be [None]: both attribute
    accesses raise [AttributeError] on [None]. *)
Definition find_text (parent : option Element) (t : string) : result (option string) :=
  match parent with
  | None => Raise AttributeError
  | Some p =>
      match ET.find p t with
      | None => Raise AttributeError
      | Some child => Ok (ET.text child)
      end
  end.

(** [EEP._get_value] *)
Definition _get_value (source : Element) (bitarray : list bool)
    : result (option string * entry) :=
  raw_value <- _get_raw source bitarray ;;
  let rng := ET.find source "range" in
  rng_min_text <- find_text rng "min" ;;
  rng_min <- Py.float_of rng_min_text ;;
  rng_max_text <- find_text rng "max" ;;
  rng_max <- Py.float_of rng_max_text ;;
  let scl := ET.find source "scale" in
  scl_min_text <- find_text scl "min" ;;
  scl_min <- Py.float_of scl_min_text ;;
  scl_max_text <- find_text scl "max" ;;
  scl_max <- Py.float_of scl_max_text ;;
  slope <- Py.float_div (scl_max - scl_min)%float (rng_max - rng_min)%float ;;
  raw_float <- Py.float_of_int raw_value ;;
  Ok (ET.get source "shortcut",
      {| description := ET.get source "description";
         unit := ET.get source "unit";
         value_of := VFloat (slope * (raw_float - rng_min) + scl_min)%float;
         raw_value_of := raw_value |}).

(** [EEP._get_enum] *)
Definition _get_enum (source : Element) (bitarray : list bool)
    : result (option string * entry) :=
  raw_value <- _get_raw source bitarray ;;
  value_desc <-
    match ET.find_attr source "item" "value" (Py.str_of_int raw_value) with
    | Some item => Ok (Some item)
    | None => _get_rangeitem source raw_value
    end ;;
  match value_desc with
  | None => Raise AttributeError
  | Some desc =>
      formatted <- Py.format (ET.get desc "description") raw_value ;;
      Ok (ET.get source "shortcut",
          {| description := ET.get source "description";
             unit := Some (ET.get_default source "unit" "");
             value_of := VStr formatted;
             raw_value_of := raw_value |})
  end.

(** [EEP._get_boolean] *)
Definition _get_boolean (source : Element) (bitarray : list bool)
    : result (option string * entry) :=
  raw_value <- _get_raw source bitarray ;;
  Ok (ET.get source "shortcut",
      {| description := ET.get source "description";
         unit := Some (ET.get_default source "unit" "");
         value_of := VBool (negb (raw_value =? 0));
         raw_value_of := raw_value |}).

(** The part of [EEP.find_profile] that follows the registry lookup: the
    choice of a [data] element of [profile]. *)
Definition select_data (profile : Element) (bitarray : list bool)
    (direction command : option Z) : result (option Element) :=
  let eep_command := ET.find profile "command" in
  if truth command then
    match eep_command with
    | None => Ok (ET.find profile "data")
    | Some _ => Ok (ET.find_attr profile "data" "command" (percent_s command))
    end
  else
    match eep_command with
    | Some eep_command =>
        command_value <- _get_raw eep_command bitarray ;;
        match ET.find_attr profile "data" "command" (Py.str_of_int command_value) with
        | Some found_data => Ok (Some found_data)
        | None => Ok (ET.find profile "data")
        end
    | None =>
        match direction with
        | None => Ok (ET.find profile "data")
        | Some _ => Ok (ET.find_attr profile "data" "direction" (percent_s direction))
        end
    end.

(** [EEP.find_profile] *)
Definition find_profile (self : EEP) (bitarray : list bool)
    (eep_rorg rorg_func rorg_type : Z) (direction command : option Z)
    : result (option Element) :=
  if negb (init_ok self) then Ok None
  else
    match telegrams self !! eep_rorg with
    | None => Ok None
    | Some funcs =>
        match funcs !! rorg_func with
        | None => Ok None
        | Some types =>
            match types !! rorg_type with
            | None => Ok None
            | Some profile => select_data profile bitarray direction command
            end
        end
    end.

(** One iteration of the loop of [EEP.get_values]. *)
Definition get_values_step (output : ordered_dict) (source : Element)
    (bitarray status : list bool) : result ordered_dict :=
  output <-
    (if ET.has_tag "value" source
     then item <- _get_value source bitarray ;; Ok (OD.update output item)
     else Ok output) ;;
  output <-
    (if ET.has_tag "enum" source
     then item <- _get_enum source bitarray ;; Ok (OD.update output item)
     else Ok output) ;;
  if ET.has_tag "status" source
  then item <- _get_boolean source status ;; Ok (OD.update output item)
  else Ok output.

Fixpoint get_values_loop (sources : list Element) (bitarray status : list bool)
    (output : ordered_dict) : result ordered_dict :=
  match sources with
  | [] => Ok output
  | source :: rest =>
      output' <- get_values_step output source bitarray status ;;
      get_values_loop rest bitarray status output'
  end.

(** [EEP.get_values]: the keys and the dictionary. *)
Definition get_values (self : EEP) (profile : option Element)
    (bitarray status : list bool) : result (list (option string) * ordered_dict) :=
  match profile with
  | Some profile =>
      if negb (init_ok self) then Ok ([], [])
      else
        output <- get_values_loop (ET.children profile) bitarray status [] ;;
        Ok (OD.keys output, output)
  | None => Ok ([], [])
  end.

(** ** Vocabulary of the statements *)

(** [x] is the first element of [l], in order, that satisfies [p]. *)
Definition first_such {A : Type} (p : A -> bool) (l : list A) (x : A) : Prop :=
  exists before after,
    l = before ++ x :: after /\ p x = true /\ Forall (fun y => p y = false) before.

(** No element of [l] satisfies [p]. *)
Definition none_such {A : Type} (p : A -> bool) (l : list A) : Prop :=
  Forall (fun y => p y = false) l.

(** The profile registered under a triple. *)
Definition registered (self : EEP) (rorg func type : Z) : option Element :=
  funcs ← telegrams self !! rorg; types ← funcs !! func; types !! type.

(** A data variant, and a data variant whose attribute [key] is the text
    [value]. *)
Definition variant : Element -> bool := ET.has_tag "data".
Definition variant_with (key value : string) : Element -> bool :=
  ET.has_tag_attr "data" key value.

(** An enumeration item whose declared value is the decimal text of
    [raw]. *)
Definition item_with (raw : Z) : Element -> bool :=
  ET.has_tag_attr "item" "value" (Py.str_of_int raw).

(** The inclusive interval [start, end] of a range item contains, or does
    not contain, [raw]; a missing bound is read as -1. *)
Definition contains (rangeitem : Element) (raw : Z) : Prop :=
  exists start stop,
    Py.int_default_m1 (ET.get rangeitem "start") = Ok start
    /\ Py.int_default_m1 (ET.get rangeitem "end") = Ok stop
    /\ start <= raw <= stop.

Definition excludes (rangeitem : Element) (raw : Z) : Prop :=
  exists start stop,
    Py.int_default_m1 (ET.get rangeitem "start") = Ok start
    /\ Py.int_default_m1 (ET.get rangeitem "end") = Ok stop
    /\ ~ (start <= raw <= stop).

(** [x] is the first range item among [l] that contains [raw]; no range
    item among [l] contains [raw]. *)
Definition first_rangeitem (raw : Z) (l : list Element) (x : Element) : Prop :=
  exists before after,
    l = before ++ x :: after
    /\ ET.has_tag "rangeitem" x = true
    /\ contains x raw
    /\ Forall (fun y => ET.has_tag "rangeitem" y = true -> excludes y raw) before.

Definition no_rangeitem (raw : Z) (l : list Element) : Prop :=
  Forall (fun y => ET.has_tag "rangeitem" y = true -> excludes y raw) l.

(** The children of a variant that [get_values] decodes, and the item each
    of them contributes. *)
Definition is_field (source : Element) : bool :=
  ET.has_tag "value" source || ET.has_tag "enum" source || ET.has_tag "status" source.

Definition decode_field (source : Element) (bitarray status : list bool)
    : result (option string * entry) :=
  if ET.has_tag "value" source then _get_value source bitarray
  else if ET.has_tag "enum" source then _get_enum source bitarray
  else _get_boolean source status.

(** The linear rescale of the specification:
    [(scale_max - scale_min) / (range_max - range_min) * (raw - range_min)
     + scale_min]. *)
Definition linear_rescale (scale_min scale_max range_min range_max raw : float) : float :=
  ((scale_max - scale_min) / (range_max - range_min) * (raw - range_min) + scale_min)%float.

(** Two floats differ by less than a millionth. *)
Definition close_to (x y : float) : bool :=
  (abs (x - y) <? 1 / 1000000)%float.

(** ** Catalogue entries used in the examples *)

Module Ex.

Definition leaf (t : string) (attrs : list (string * string)) : Element :=
  mkElement t (list_to_map attrs) None [].

Definition node (t : string) (attrs : list (string * string))
    (children : list Element) : Element :=
  mkElement t (list_to_map attrs) None children.

Definition text_node (t s : string) : Element :=
  mkElement t ∅ (Some s) [].

Definition ones8 : list bool := replicate 8 true.
Definition zeros8 : list bool := replicate 8 false.

(** A 4-bit field inside a byte, and one that runs past its end. *)
Definition inner_field : Element := leaf "value" [("offset", "2"); ("size", "4")].
Definition late_field : Element := leaf "value" [("offset", "6"); ("size", "4")].

(** A profile without command discriminator, with one variant per
    direction. *)
Definition variant_dir1 : Element :=
  node "data" [("direction", "1")]
    [leaf "value" [("shortcut", "SP"); ("offset", "0"); ("size", "8")]].
Definition variant_dir2 : Element :=
  node "data" [("direction", "2")]
    [leaf "value" [("shortcut", "TMP"); ("offset", "8"); ("size", "8")]].
Definition two_way : Element :=
  node "profile" [("type", "0x01")] [variant_dir1; variant_dir2].

(** A profile with a command discriminator in the first four bits and
    three variants, for the commands 1, 2 and 3. *)
Definition command_field : Element :=
  leaf "command" [("shortcut", "CMD"); ("offset", "0"); ("size", "4")].
Definition variant_cmd (n : string) : Element :=
  node "data" [("command", n)] [].
Definition commanded : Element :=
  node "profile" [("type", "0x08")]
    [command_field; variant_cmd "1"; variant_cmd "2"; variant_cmd "3"].

(** The temperature field of the scenario: one byte, range 0 to 255,
    scale -40.0 to 0.0. *)
Definition temperature : Element :=
  node "value"
    [("shortcut", "TMP"); ("description", "Temperature"); ("unit", "C");
     ("offset", "0"); ("size", "8")]
    [node "range" [] [text_node "min" "0"; text_node "max" "255"];
     node "scale" [] [text_node "min" "-40.0"; text_node "max" "0.0"]].

(** A numeric field whose range is degenerate. *)
Definition degenerate : Element :=
  node "value" [("shortcut", "HUM"); ("offset", "0"); ("size", "8")]
    [node "range" [] [text_node "min" "0"; text_node "max" "0"];
     node "scale" [] [text_node "min" "0"; text_node "max" "100"]].

(** An enumeration with one item and one range item. *)
Definition open_item : Element :=
  leaf "item" [("value", "5"); ("description", "Open")].
Definition mid_range : Element :=
  leaf "rangeitem" [("start", "6"); ("end", "10"); ("description", "Mid {value}")].
Definition level : Element :=
  node "enum" [("shortcut", "LVL"); ("offset", "0"); ("size", "8")]
    [open_item; mid_range].

Definition byte5 : list bool :=
  [false; false; false; false; false; true; false; true].
Definition byte7 : list bool :=
  [false; false; false; false; false; true; true; true].
Definition byte15 : list bool :=
  [false; false; false; false; true; true; true; true].

(** Two status flags that share the shortcut X. *)
Definition flag_a : Element :=
  leaf "status" [("shortcut", "X"); ("description", "first"); ("offset", "0"); ("size", "1")].
Definition flag_b : Element :=
  leaf "status" [("shortcut", "X"); ("description", "second"); ("offset", "1"); ("size", "1")].
Definition twice : Element := node "data" [] [flag_a; flag_b].

(** A variant whose first field cannot be converted. *)
Definition broken_first : Element := node "data" [] [degenerate; flag_a].

Definition catalogue : EEP :=
  {| init_ok := true;
     telegrams := {[ 0xA5 := {[ 0x20 := {[ 0x01 := two_way ]};
                                0x38 := {[ 0x08 := commanded ]} ]} ]} |}.

(** Bytes whose first four bits spell 3 and 9. *)
Definition bits_cmd3 : list bool :=
  [false; false; true; true; false; false; false; false].
Definition bits_cmd9 : list bool :=
  [true; false; false; true; false; false; false; false].

End Ex.

(** ** The encode path *)

(** A value supplied by the caller in [properties]: an integer, a boolean, a
    float or a string. *)
Inductive pyval : Type :=
  | PInt (n : Z)
  | PBool (b : bool)
  | PFloat (x : float)
  | PStr (s : string).

Module PyVal.

(** [isinstance(v, int)], with the integer [v] stands for: [bool] is a
    subclass of [int], [True] is 1 and [False] is 0. *)
Definition as_int (v : pyval) : option Z :=
  match v with
  | PInt n => Some n
  | PBool b => Some (Z.b2z b)
  | PFloat _ => None
  | PStr _ => None
  end.

(** The truth value of [v]. *)
Definition truth (v : pyval) : bool :=
  match v with
  | PInt n => negb (n =? 0)
  | PBool b => b
  | PFloat x => negb (PrimFloat.eqb x 0)
  | PStr s => negb (String.eqb s EmptyString)
  end.

(** ['%s' % v]; the text of a float is not described. *)
Definition percent_s (v : pyval) : result string :=
  match v with
  | PInt n => Ok (Py.str_of_int n)
  | PBool true => Ok "True"%string
  | PBool false => Ok "False"%string
  | PFloat _ => Raise Unmodelled
  | PStr s => Ok s
  end.

(** [float(n)] for an integer of magnitude below 2^63. *)
Definition float_of_signed (n : Z) : result float :=
  if 0 <=? n then Py.float_of_int n
  else x <- Py.float_of_int (- n) ;; Ok (- x)%float.

(** The float that [v - x] computes with when [x] is a float; a string has
    no subtraction. *)
Definition to_float (v : pyval) : result float :=
  match v with
  | PInt n => float_of_signed n
  | PBool b => Ok (if b then 1 else 0)%float
  | PFloat x => Ok x
  | PStr _ => Raise TypeError
  end.

(** [int(x)] for a float [x]: truncation towards zero.  [int(nan)] raises
    [ValueError]; [int(inf)] raises [OverflowError], which is not among the
    exceptions described here. *)
Definition int_of_float (x : float) : result Z :=
  match Prim2SF x with
  | S754_zero _ => Ok 0
  | S754_nan => Raise ValueError
  | S754_infinity _ => Raise Unmodelled
  | S754_finite sign m e =>
      let magnitude := if 0 <=? e then Z.shiftl (Z.pos m) e
                       else Z.shiftr (Z.pos m) (- e) in
      Ok (if sign then - magnitude else magnitude)
  end.

End PyVal.

Module Path.

(** A text can be spliced between the double quotes of a path predicate
    when it holds no double quote itself. *)
Definition quotable (value : string) : bool :=
  negb (Py.string_exists (Ascii.eqb (ascii_of_nat 34)) value).

(** The elements below [e], in document order: what [e.iter()] yields after
    [e] itself. *)
Fixpoint descendants (e : Element) : list Element :=
  let 'mkElement _ _ _ cs := e in
  flat_map (fun c => c :: descendants c) cs.

(** The predicate [[@key="value"]]. *)
Definition has_attr (key value : string) (e : Element) : bool :=
  match ET.get e key with
  | Some v => String.eqb v value
  | None => false
  end.

(** [e.find('.//*[@key="value"]')] *)
Definition find_below (e : Element) (key value : string) : option Element :=
  List.find (has_attr key value) (descendants e).

End Path.

(** A bit array holds truth values: the module reads an element of a bit
    array only through its truth value ([_get_raw]), so an element stored by
    [_set_boolean] is kept as the truth value of the datum. *)

(** The raw value computed by [EEP._set_value]:
    [int((value - scl_min) * (rng_max - rng_min) / (scl_max - scl_min)
     + rng_min)]. *)
Definition _set_value_raw (target : Element) (value : pyval) : result Z :=
  let rng := ET.find target "range" in
  rng_min_text <- find_text rng "min" ;;
  rng_min <- Py.float_of rng_min_text ;;
  rng_max_text <- find_text rng "max" ;;
  rng_max <- Py.float_of rng_max_text ;;
  let scl := ET.find target "scale" in
  scl_min_text <- find_text scl "min" ;;
  scl_min <- Py.float_of scl_min_text ;;
  scl_max_text <- find_text scl "max" ;;
  scl_max <- Py.float_of scl_max_text ;;
  v <- PyVal.to_float value ;;
  quotient <- Py.float_div ((v - scl_min) * (rng_max - rng_min))%float
                (scl_max - scl_min)%float ;;
  PyVal.int_of_float (quotient + rng_min)%float.

(** [EEP._set_value] *)
Definition _set_value (target : Element) (value : pyval) (bitarray : list bool)
    : list bool * option exn :=
  match _set_value_raw target value with
  | Raise e => (bitarray, Some e)
  | Ok raw_value => _set_raw target raw_value bitarray
  end.

(** The raw value chosen by [EEP._set_enum]. *)
Definition _set_enum_raw (target : Element) (value : pyval) : result Z :=
  match PyVal.as_int value with
  | Some n =>
      text <- PyVal.percent_s value ;;
      value_item <-
        match ET.find_attr target "item" "value" text with
        | Some item => Ok (Some item)
        | None => _get_rangeitem target n
        end ;;
      match value_item with
      | Some _ => Ok n
      | None => Raise ValueError
      end
  | None =>
      text <- PyVal.percent_s value ;;
      if Path.quotable text then
        match ET.find_attr target "item" "description" text with
        | None => Raise ValueError
        | Some value_item => Py.int_of (ET.get value_item "value")
        end
      else Raise Unmodelled
  end.

(** [EEP._set_enum] *)
Definition _set_enum (target : Element) (value : pyval) (bitarray : list bool)
    : list bool * option exn :=
  match _set_enum_raw target value with
  | Raise e => (bitarray, Some e)
  | Ok raw_value => _set_raw target raw_value bitarray
  end.

(** [EEP._set_boolean] *)
Definition _set_boolean (target : Element) (data : pyval) (bitarray : list bool)
    : list bool * option exn :=
  match Py.int_of (ET.get target "offset") with
  | Raise e => (bitarray, Some e)
  | Ok offset =>
      match Py.setitem bitarray offset (PyVal.truth data) with
      | Ok bitarray' => (bitarray', None)
      | Raise e => (bitarray, Some e)
      end
  end.

(** The body of the loop of [EEP.set_values] once [target] is found: the
    three tests on its tag, each of which may raise. *)
Definition set_values_target (target : Element) (value : pyval)
    (data status : list bool) : list bool * list bool * option exn :=
  let '(data, raised) :=
    if ET.has_tag "value" target then _set_value target value data
    else (data, None) in
  match raised with
  | Some e => (data, status, Some e)
  | None =>
      let '(data, raised) :=
        if ET.has_tag "enum" target then _set_enum target value data
        else (data, None) in
      match raised with
      | Some e => (data, status, Some e)
      | None =>
          let '(status, raised) :=
            if ET.has_tag "status" target then _set_boolean target value status
            else (status, None) in
          (data, status, raised)
      end
  end.

(** One iteration of the loop of [EEP.set_values]; a shortcut that no
    element has is skipped.  A shortcut that holds a double quote splices
    another path into [find], which is not described: the outcome
    [Unmodelled] then says nothing about the element chosen nor about the
    arrays. *)
Definition set_values_step (profile : Element) (shortcut : string) (value : pyval)
    (data status : list bool) : list bool * list bool * option exn :=
  if Path.quotable shortcut then
    match Path.find_below profile "shortcut" shortcut with
    | None => (data, status, None)
    | Some target => set_values_target target value data status
    end
  else (data, status, Some Unmodelled).

Fixpoint set_values_loop (profile : Element) (properties : list (string * pyval))
    (data status : list bool) : list bool * list bool * option exn :=
  match properties with
  | [] => (data, status, None)
  | (shortcut, value) :: rest =>
      match set_values_step profile shortcut value data status with
      | (data', status', None) => set_values_loop profile rest data' status'
      | (data', status', Some e) => (data', status', Some e)
      end
  end.

(** [EEP.set_values]: the content of the two bit arrays when the call ends
    and the exception, if one was raised; [properties] lists the items of
    the dictionary in iteration order. *)
Definition set_values (self : EEP) (profile : option Element)
    (data status : list bool) (properties : list (string * pyval))
    : list bool * list bool * option exn :=
  match profile with
  | Some profile =>
      if negb (init_ok self) then (data, status, None)
      else set_values_loop profile properties data status
  | None => (data, status, None)
  end.

(** ** Vocabulary of the further statements *)

(** The distinct elements of a list, each at the place of its first
    occurrence. *)
Fixpoint first_occurrences (l : list (option string)) : list (option string) :=
  match l with
  | [] => []
  | x :: rest => x :: filter (fun y => y <> x) (first_occurrences rest)
  end.

(** The shortcuts of the fields among [l], in declaration order. *)
Definition field_shortcuts (l : list Element) : list (option string) :=
  (fun field => ET.get field "shortcut") <$> List.filter is_field l.



(** ** The registry *)

Section Registry.

(** [enocean.utils.from_hex_string] is defined outside this module.  The
    parameter stands for the call followed by the use of its result as a
    dictionary key: a result that is not an integer is the exception that
    its use as a key raises. *)
Variable from_hex_string : option string -> result Z.

(** A dictionary comprehension [{from_hex_string(x.get(attr)): value(x) for
    x in l}]: the items are stored in order, so a later item replaces an
    earlier one with the same key.  The key is evaluated before the value
    (Python 3.8 and later). *)
Fixpoint comprehension {V : Type} (attr : string) (value : Element -> result V)
    (l : list Element) (acc : gmap Z V) : result (gmap Z V) :=
  match l with
  | [] => Ok acc
  | x :: rest =>
      k <- from_hex_string (ET.get x attr) ;;
      v <- value x ;;
      comprehension attr value rest (<[k := v]> acc)
  end.

(** [EEP.__load_xml], from the innermost dictionary to the outermost. *)
Definition load_types (function : Element) : result (gmap Z Element) :=
  comprehension "type" (fun type => Ok type) (ET.findall function "profile") ∅.

Definition load_functions (telegram : Element) : result (gmap Z (gmap Z Element)) :=
  comprehension "func" load_types (ET.findall telegram "profiles") ∅.

Definition __load_xml (root : Element) : result (gmap Z (gmap Z (gmap Z Element))) :=
  comprehension "rorg" load_functions (ET.findall root "telegram") ∅.

(** [EEP.__init__]: [parsed] is the root of the parsed catalogue, or [None]
    when [ET.parse] raised [IOError] or [ParseError], the two exceptions the
    constructor catches.  Any other exception leaves the constructor. *)
Definition __init__ (parsed : option Element) : result EEP :=
  match parsed with
  | None => Ok {| init_ok := false; telegrams := ∅ |}
  | Some root =>
      loaded <- __load_xml root ;;
      Ok {| init_ok := true; telegrams := loaded |}
  end.

(** The last element of [l] whose attribute [attr] is the key [k]. *)
Definition keyed (attr : string) (k : Z) (x : Element) : bool :=
  match from_hex_string (ET.get x attr) with
  | Ok k' => k' =? k
  | Raise _ => false
  end.

Definition last_keyed (attr : string) (k : Z) (l : list Element) : option Element :=
  List.find (keyed attr k) (reverse l).

End Registry.

Module Ex2.

(** A [from_hex_string] for the identifiers of the example. *)
Definition hex (x : option string) : result Z :=
  match x with
  | Some "0xA5"%string => Ok 0xA5
  | Some "0x02"%string => Ok 0x02
  | Some "0x05"%string => Ok 0x05
  | Some _ => Raise ValueError
  | None => Raise AttributeError
  end.

(** A catalogue in which the telegram 0xA5 is declared twice. *)
Definition profile_old : Element := Ex.node "profile" [("type", "0x05")] [Ex.variant_dir1].
Definition profile_new : Element := Ex.node "profile" [("type", "0x05")] [Ex.variant_dir2].
Definition root : Element :=
  Ex.node "telegrams" []
    [Ex.node "telegram" [("rorg", "0xA5")]
       [Ex.node "profiles" [("func", "0x02")] [profile_old]];
     Ex.node "telegram" [("rorg", "0xA5")]
       [Ex.node "profiles" [("func", "0x02")] [profile_old; profile_new]]].

(** The object built from that catalogue. *)
Definition loaded : EEP :=
  match __init__ hex (Some root) with
  | Ok self => self
  | Raise _ => {| init_ok := false; telegrams := ∅ |}
  end.

(** A catalogue whose second telegram has no rorg. *)
Definition root_bad : Element :=
  Ex.node "telegrams" []
    [Ex.node "telegram" [("rorg", "0xA5")] [];
     Ex.node "telegram" [] []].

End Ex2.

Module Ex3.

(** A profile whose second variant writes the command 3 with a leading
    zero. *)
Definition variant_03 : Element := Ex.node "data" [("command", "03")] [].
Definition padded : Element :=
  Ex.node "profile" [("type", "0x09")]
    [Ex.command_field; Ex.variant_cmd "1"; variant_03].

Definition catalogue : EEP :=
  {| init_ok := true;
     telegrams := {[ 0xA5 := {[ 0x38 := {[ 0x09 := padded ]} ]} ]} |}.

(** An enumeration whose item writes the value 7 with a leading zero. *)
Definition item_07 : Element :=
  Ex.leaf "item" [("value", "07"); ("description", "Seven")].
Definition padded_enum : Element :=
  Ex.node "enum" [("shortcut", "LVL"); ("offset", "0"); ("size", "8")] [item_07].

(** A variant with a numeric field and a status flag. *)
Definition mixed : Element := Ex.node "data" [] [Ex.temperature; Ex.flag_b].

End Ex3.

(** * Properties *)

(** ** The bitfield codec *)

Section Codec.

Lemma written_bit_testbit raw_value size digit :
  0 <= size - digit - 1 ->
  written_bit raw_value size digit = Z.testbit raw_value (size - digit - 1).
Proof.
  intros Hk. unfold written_bit.
  pose proof (Z.land_ones (Z.shiftr raw_value (size - digit - 1)) 1 ltac:(lia)) as Hl.
  change (Z.ones 1) with 1 in Hl. change (2 ^ 1) with 2 in Hl. rewrite Hl.
  rewrite Z.shiftr_div_pow2 by lia.
  pose proof (Z.testbit_spec' raw_value (size - digit - 1) Hk) as Hb.
  destruct (Z.testbit raw_value (size - digit - 1)); simpl in Hb; rewrite <- Hb;
    reflexivity.
Qed.

Lemma binary_from_join (digits : list bool) (acc : Z) :
  Py.binary_from acc (Py.join (bit_digit <$> digits))
  = Ok (fold_left (fun a d => 2 * a + Z.b2z d) digits acc).
Proof.
  revert acc. induction digits as [|d digits IH]; intros acc; [reflexivity|].
  destruct d; cbn [fmap list_fmap Py.join fold_right bit_digit fold_left Z.b2z].
  - cbn [String.append Py.binary_from]. rewrite <- IH. reflexivity.
  - cbn [String.append Py.binary_from]. rewrite <- IH.
    replace (2 * acc + 0) with (2 * acc) by lia. reflexivity.
Qed.

Lemma int_base2_join (digits : list bool) :
  digits <> [] ->
  Py.int_base2 (Py.join (bit_digit <$> digits)) = Ok (bits_value digits).
Proof.
  intros Hne. unfold Py.int_base2, bits_value.
  rewrite <- binary_from_join.
  destruct digits as [|d digits]; [congruence|].
  destruct d; reflexivity.
Qed.

Lemma bits_value_snoc (digits : list bool) (d : bool) :
  bits_value (digits ++ [d]) = 2 * bits_value digits + Z.b2z d.
Proof. unfold bits_value. rewrite fold_left_app. reflexivity. Qed.

(** The [n] low bits of [v], most significant first, spell [v]. *)
Lemma bits_value_testbits (n : nat) (v : Z) :
  0 <= v < 2 ^ Z.of_nat n ->
  bits_value ((fun d => Z.testbit v (Z.of_nat n - d - 1)) <$> Py.range (Z.of_nat n)) = v.
Proof.
  revert v. induction n as [|n IH]; intros v Hv.
  - simpl in *. unfold bits_value. simpl. lia.
  - unfold Py.range in *. rewrite Nat2Z.id in *.
    rewrite seq_S, fmap_app, fmap_app. simpl.
    rewrite bits_value_snoc.
    replace (Z.of_nat (S n) - Z.of_nat n - 1) with 0 by lia.
    assert (Hhalf : 0 <= v / 2 < 2 ^ Z.of_nat n).
    { rewrite Nat2Z.inj_succ, Z.pow_succ_r in Hv by lia.
      split; [apply Z.div_pos; lia | apply Z.div_lt_upper_bound; lia]. }
    specialize (IH (v / 2) Hhalf).
    rewrite Z.bit0_mod.
    assert (Heq : ((fun d => Z.testbit v (Z.of_nat (S n) - d - 1)) <$> (Z.of_nat <$> seq 0 n))
                = ((fun d => Z.testbit (v / 2) (Z.of_nat n - d - 1)) <$> (Z.of_nat <$> seq 0 n))).
    { rewrite <- !list_fmap_compose. apply list_fmap_ext.
      intros i x Hx. simpl.
      apply lookup_seq in Hx as [-> Hlt].
      rewrite <- Z.div2_div.
      rewrite Z.div2_spec, Z.shiftr_spec by lia.
      f_equal. lia. }
    rewrite Heq, IH.
    pose proof (Z.div_mod v 2 ltac:(lia)). lia.
Qed.


Lemma setitem_in_range (bits : list bool) (i : Z) (b : bool) :
  0 <= i < Z.of_nat (length bits) ->
  Py.setitem bits i b = Ok (<[Z.to_nat i := b]> bits).
Proof.
  intros Hi. unfold Py.setitem.
  destruct (Z.ltb_spec i 0); [lia|].
  destruct (Z.leb_spec 0 i); [|lia].
  destruct (Z.ltb_spec i (Z.of_nat (length bits))); [reflexivity|lia].
Qed.

Lemma setitem_past_end (bits : list bool) (i : Z) (b : bool) :
  Z.of_nat (length bits) <= i ->
  Py.setitem bits i b = Raise IndexError.
Proof.
  intros Hi. unfold Py.setitem.
  destruct (Z.ltb_spec i 0); [lia|].
  destruct (Z.ltb_spec i (Z.of_nat (length bits))); [lia|].
  rewrite andb_false_r. reflexivity.
Qed.

(** When every index is in range the loop ends normally, keeps the length,
    leaves the other positions alone and stores each digit's bit. *)
Lemma set_raw_loop_in_range (offset size raw_value : Z) (digits : list Z) :
  0 <= offset ->
  forall bits : list bool,
  Forall (fun d => 0 <= d /\ offset + d < Z.of_nat (length bits)) digits ->
  exists bits',
    _set_raw_loop offset size raw_value digits bits = (bits', None)
    /\ length bits' = length bits
    /\ (forall i : nat,
          Forall (fun d => Z.to_nat (offset + d) <> i) digits ->
          bits' !! i = bits !! i)
    /\ (NoDup digits ->
        forall d, d ∈ digits ->
        bits' !! Z.to_nat (offset + d) = Some (written_bit raw_value size d)).
Proof.
  intros Hoff. induction digits as [|d digits IH]; intros bits Hall.
  - exists bits. split; [reflexivity|]. split; [reflexivity|].
    split; [reflexivity|]. intros _ d Hd. inversion Hd.
  - apply Forall_cons in Hall as [[Hd0 Hd] Hall].
    cbn [_set_raw_loop]. rewrite setitem_in_range by lia.
    set (bits1 := <[Z.to_nat (offset + d) := written_bit raw_value size d]> bits).
    assert (Hlen1 : length bits1 = length bits) by apply length_insert.
    destruct (IH bits1) as (bits' & Hrun & Hlen & Hout & Hin).
    { rewrite Hlen1. exact Hall. }
    exists bits'. split; [exact Hrun|]. split; [congruence|]. split.
    + intros i Hi. apply Forall_cons in Hi as [Hi0 Hi].
      rewrite Hout by exact Hi. subst bits1.
      apply list_lookup_insert_ne. exact Hi0.
    + intros Hnd d' Hd'. apply NoDup_cons in Hnd as [Hnotin Hnd].
      apply elem_of_cons in Hd' as [->|Hd'].
      * rewrite Hout.
        -- subst bits1. apply list_lookup_insert_eq. lia.
        -- apply Forall_forall. intros x Hx Heq.
           assert (x = d); [|subst; contradiction].
           rewrite Forall_forall in Hall. specialize (Hall x Hx). lia.
      * apply Hin; assumption.
Qed.

Lemma range_spec (n : Z) (d : Z) : d ∈ Py.range n <-> 0 <= d < n.
Proof.
  unfold Py.range. rewrite list_elem_of_fmap. split.
  - intros (k & -> & Hk). apply elem_of_seq in Hk. lia.
  - intros Hd. exists (Z.to_nat d). split; [lia|]. apply elem_of_seq. lia.
Qed.

Lemma range_NoDup (n : Z) : NoDup (Py.range n).
Proof.
  unfold Py.range. apply NoDup_fmap; [|apply NoDup_seq].
  intros x y. apply Nat2Z.inj.
Qed.

Lemma range_lookup (n : Z) (i : nat) :
  (i < Z.to_nat n)%nat -> Py.range n !! i = Some (Z.of_nat i).
Proof.
  intros Hi. unfold Py.range. rewrite list_lookup_fmap.
  rewrite lookup_seq_lt by exact Hi. reflexivity.
Qed.

Lemma slice_in_range (bits : list bool) (offset size : Z) :
  0 <= offset -> 0 <= size -> offset + size <= Z.of_nat (length bits) ->
  Py.slice bits offset (offset + size)
  = take (Z.to_nat size) (drop (Z.to_nat offset) bits).
Proof.
  intros Ho Hs Hlen. unfold Py.slice, Py.clamp.
  destruct (Z.ltb_spec offset 0); [lia|].
  destruct (Z.ltb_spec (offset + size) 0); [lia|].
  rewrite !Z.min_l by lia. f_equal. lia.
Qed.


Lemma slice_past_end (bits : list bool) (offset size : Z) :
  0 <= offset -> Z.of_nat (length bits) <= offset + size ->
  Py.slice bits offset (offset + size) = drop (Z.to_nat offset) bits.
Proof.
  intros Ho Hlen. unfold Py.slice, Py.clamp.
  destruct (Z.ltb_spec offset 0); [lia|].
  destruct (Z.ltb_spec (offset + size) 0); [lia|].
  rewrite (Z.min_r (offset + size)) by lia.
  destruct (Z.le_gt_cases offset (Z.of_nat (length bits))).
  - rewrite Z.min_l by lia. apply take_ge. rewrite length_drop. lia.
  - rewrite Z.min_r by lia. rewrite Nat2Z.id, Z.sub_diag.
    rewrite !drop_ge by lia. reflexivity.
Qed.

Lemma range_split (n k : Z) :
  0 <= k < n -> exists rest, Py.range n = Py.range k ++ k :: rest.
Proof.
  intros Hk. unfold Py.range.
  replace (Z.to_nat n) with (Z.to_nat k + S (Z.to_nat n - Z.to_nat k - 1))%nat by lia.
  rewrite seq_app, fmap_app. cbn [seq fmap list_fmap].
  rewrite Nat.add_0_l, Z2Nat.id by lia. eauto.
Qed.

(** The loop stops with [IndexError] at the first digit whose position is
    past the end; the digits before it have been stored. *)
Lemma set_raw_loop_past_end (offset size raw_value d : Z) (rest : list Z) :
  0 <= offset ->
  forall (before : list Z) (bits : list bool),
  Forall (fun x => 0 <= x /\ offset + x < Z.of_nat (length bits)) before ->
  Z.of_nat (length bits) <= offset + d ->
  exists bits',
    _set_raw_loop offset size raw_value (before ++ d :: rest) bits
    = (bits', Some IndexError)
    /\ length bits' = length bits.
Proof.
  intros Hoff. induction before as [|x before IH]; intros bits Hall Hd.
  - cbn [app _set_raw_loop]. rewrite setitem_past_end by exact Hd. eauto.
  - apply Forall_cons in Hall as [[Hx0 Hx] Hall].
    cbn [app _set_raw_loop]. rewrite setitem_in_range by lia.
    destruct (IH (<[Z.to_nat (offset + x) := written_bit raw_value size x]> bits))
      as (bits' & Hrun & Hlen).
    + rewrite length_insert. exact Hall.
    + rewrite length_insert. exact Hd.
    + exists bits'. split; [exact Hrun|]. rewrite Hlen. apply length_insert.
Qed.

End Codec.

(** Inside the sequence a read gives the value of the bits of the field,
    most significant first. *)
Lemma get_raw_in_range (field : Element) (bits : list bool) (offset size : Z) :
  Py.int_of (ET.get field "offset") = Ok offset ->
  Py.int_of (ET.get field "size") = Ok size ->
  0 <= offset ->
  1 <= size ->
  offset + size <= Z.of_nat (length bits) ->
  _get_raw field bits
  = Ok (bits_value (take (Z.to_nat size) (drop (Z.to_nat offset) bits))).
Proof.
  intros Ho Hs Hoff Hsize Hlen. unfold _get_raw. rewrite Ho, Hs. cbn [bind].
  rewrite slice_in_range by lia. apply int_base2_join.
  intros Hnil. apply (f_equal length) in Hnil.
  rewrite length_take, length_drop in Hnil. simpl in Hnil. lia.
Qed.

(** C4.  Writing an unsigned value [v < 2^size] into a field of 1 to 32 bits
    that lies inside the bit sequence and reading the field back gives [v];
    the write keeps the length and every bit outside
    [offset, offset + size) unchanged.  Offsets are bit positions, counted
    from 0. *)
Theorem set_raw_get_raw_roundtrip (field : Element) (bits : list bool)
    (offset size v : Z) :
  Py.int_of (ET.get field "offset") = Ok offset ->
  Py.int_of (ET.get field "size") = Ok size ->
  1 <= size <= 32 ->
  0 <= offset ->
  offset + size <= Z.of_nat (length bits) ->
  0 <= v < 2 ^ size ->
  exists bits',
    _set_raw field v bits = (bits', None)
    /\ _get_raw field bits' = Ok v
    /\ length bits' = length bits
    /\ forall i : nat,
         Z.of_nat i < offset \/ offset + size <= Z.of_nat i ->
         bits' !! i = bits !! i.
Proof.
  intros Ho Hs Hsize Hoff Hlen Hv.
  destruct (set_raw_loop_in_range offset size v (Py.range size) Hoff bits)
    as (bits' & Hrun & Hl & Hout & Hin).
  { apply Forall_forall. intros d Hd. apply range_spec in Hd. lia. }
  exists bits'. split; [|split; [|split]].
  - unfold _set_raw. rewrite Ho, Hs. exact Hrun.
  - unfold _get_raw. rewrite Ho, Hs. cbn [bind].
    rewrite slice_in_range by lia.
    assert (Hbits : take (Z.to_nat size) (drop (Z.to_nat offset) bits')
                    = (fun d => Z.testbit v (size - d - 1)) <$> Py.range size).
    { apply list_eq. intros i.
      destruct (decide (i < Z.to_nat size)%nat) as [Hi|Hi].
      - rewrite lookup_take_lt, lookup_drop, list_lookup_fmap by exact Hi.
        rewrite range_lookup by exact Hi. cbn [fmap option_fmap option_map].
        replace (Z.to_nat offset + i)%nat with (Z.to_nat (offset + Z.of_nat i)) by lia.
        rewrite Hin; [|apply range_NoDup|apply range_spec; lia].
        rewrite written_bit_testbit by lia. reflexivity.
      - rewrite lookup_take_ge by lia. symmetry. apply lookup_ge_None.
        unfold Py.range. rewrite !length_fmap, length_seq. lia. }
    rewrite Hbits, int_base2_join.
    + f_equal. replace size with (Z.of_nat (Z.to_nat size)) by lia.
      apply bits_value_testbits. rewrite Z2Nat.id by lia. exact Hv.
    + destruct (range_split size 0 ltac:(lia)) as [rest ->]. discriminate.
  - exact Hl.
  - intros i Hi. apply Hout. apply Forall_forall. intros d Hd.
    apply range_spec in Hd. lia.
Qed.

Lemma set_raw_get_raw_roundtrip_witness :
  exists bits',
    _set_raw Ex.inner_field 5 Ex.zeros8 = (bits', None)
    /\ _get_raw Ex.inner_field bits' = Ok 5
    /\ length bits' = length Ex.zeros8
    /\ forall i : nat,
         Z.of_nat i < 2 \/ 2 + 4 <= Z.of_nat i ->
         bits' !! i = Ex.zeros8 !! i.
Proof.
  apply (set_raw_get_raw_roundtrip Ex.inner_field Ex.zeros8 2 4 5);
    first [reflexivity | simpl; lia].
Defined.

(** An error of the read is not caught by the field decoders. *)
Lemma get_raw_error_surfaces (source : Element) (bits : list bool) (e : exn) :
  _get_raw source bits = Raise e ->
  _get_value source bits = Raise e
  /\ _get_enum source bits = Raise e
  /\ _get_boolean source bits = Raise e.
Proof.
  intros Hraw. unfold _get_value, _get_enum, _get_boolean. rewrite Hraw.
  repeat split.
Qed.

(** C5, as the code has it.  For a field that runs past the end of the bit
    sequence ([offset + size] exceeds its length, with [size >= 1]):
    [_set_raw] raises [IndexError]; [_get_raw] raises nothing while the
    field starts inside the sequence, it returns the value of the bits from
    [offset] to the end of the sequence; it raises [ValueError] when the
    field starts at or after the end, and the field decoders raise that
    error in turn. *)
Theorem codec_past_end (field : Element) (bits : list bool)
    (offset size raw_value : Z) :
  Py.int_of (ET.get field "offset") = Ok offset ->
  Py.int_of (ET.get field "size") = Ok size ->
  0 <= offset ->
  1 <= size ->
  Z.of_nat (length bits) < offset + size ->
  (_set_raw field raw_value bits).2 = Some IndexError
  /\ (offset < Z.of_nat (length bits) ->
      _get_raw field bits = Ok (bits_value (drop (Z.to_nat offset) bits)))
  /\ (Z.of_nat (length bits) <= offset ->
      _get_raw field bits = Raise ValueError
      /\ _get_value field bits = Raise ValueError
      /\ _get_enum field bits = Raise ValueError
      /\ _get_boolean field bits = Raise ValueError).
Proof.
  intros Ho Hs Hoff Hsize Hlen. split; [|split].
  - unfold _set_raw. rewrite Ho, Hs.
    set (d := Z.max 0 (Z.of_nat (length bits) - offset)).
    destruct (range_split size d ltac:(lia)) as [rest ->].
    destruct (set_raw_loop_past_end offset size raw_value d rest Hoff
                (Py.range d) bits) as (bits' & -> & _); [| lia | reflexivity].
    apply Forall_forall. intros x Hx. apply range_spec in Hx. lia.
  - intros Hin. unfold _get_raw. rewrite Ho, Hs. cbn [bind].
    rewrite slice_past_end by lia. apply int_base2_join.
    intros Hnil. apply (f_equal length) in Hnil.
    rewrite length_drop in Hnil. simpl in Hnil. lia.
  - intros Hout.
    assert (Hraw : _get_raw field bits = Raise ValueError).
    { unfold _get_raw. rewrite Ho, Hs. cbn [bind].
      rewrite slice_past_end by lia. rewrite drop_ge by lia. reflexivity. }
    split; [exact Hraw | apply get_raw_error_surfaces, Hraw].
Qed.

Lemma codec_past_end_witness :
  (_set_raw Ex.late_field 5 Ex.ones8).2 = Some IndexError
  /\ (6 < Z.of_nat (length Ex.ones8) ->
      _get_raw Ex.late_field Ex.ones8 = Ok (bits_value (drop (Z.to_nat 6) Ex.ones8)))
  /\ (Z.of_nat (length Ex.ones8) <= 6 ->
      _get_raw Ex.late_field Ex.ones8 = Raise ValueError
      /\ _get_value Ex.late_field Ex.ones8 = Raise ValueError
      /\ _get_enum Ex.late_field Ex.ones8 = Raise ValueError
      /\ _get_boolean Ex.late_field Ex.ones8 = Raise ValueError).
Proof.
  apply (codec_past_end Ex.late_field Ex.ones8 6 4 5);
    first [reflexivity | simpl; lia].
Defined.

(** C5 as stated fails for the read: the field at offset 6 of size 4 runs
    past the end of a byte, and [_get_raw] returns 3, the value of the two
    bits that exist. *)
Lemma get_raw_past_end_no_error :
  Py.int_of (ET.get Ex.late_field "offset") = Ok 6
  /\ Py.int_of (ET.get Ex.late_field "size") = Ok 4
  /\ Z.of_nat (length Ex.ones8) < 6 + 4
  /\ _get_raw Ex.late_field Ex.ones8 = Ok 3.
Proof. repeat split; reflexivity. Qed.

(** ** The profile resolver *)

Section Find.

Context {A : Type} (p : A -> bool).

Lemma find_first_such (l : list A) (x : A) :
  first_such p l x -> List.find p l = Some x.
Proof.
  intros (before & after & -> & Hx & Hbefore).
  induction Hbefore as [|y before Hy _ IH]; simpl.
  - rewrite Hx. reflexivity.
  - rewrite Hy. exact IH.
Qed.

Lemma find_none_such (l : list A) :
  none_such p l -> List.find p l = None.
Proof.
  induction 1 as [|y l Hy _ IH]; simpl; [reflexivity|].
  rewrite Hy. exact IH.
Qed.

Lemma find_Some_first_such (l : list A) (x : A) :
  List.find p l = Some x -> first_such p l x.
Proof.
  induction l as [|y l IH]; simpl; [discriminate|].
  destruct (p y) eqn:Hy.
  - intros [= ->]. exists [], l. repeat split; [exact Hy | constructor].
  - intros Hfind. destruct (IH Hfind) as (before & after & -> & Hx & Hbefore).
    exists (y :: before), after. repeat split; [exact Hx | constructor; assumption].
Qed.

Lemma find_None_none_such (l : list A) :
  List.find p l = None -> none_such p l.
Proof.
  induction l as [|y l IH]; simpl; [constructor|].
  destruct (p y) eqn:Hy; [discriminate|].
  intros Hfind. constructor; [exact Hy | exact (IH Hfind)].
Qed.

End Find.

Lemma find_profile_registered (self : EEP) (bits : list bool)
    (rorg func type : Z) (direction command : option Z) (profile : Element) :
  init_ok self = true ->
  registered self rorg func type = Some profile ->
  find_profile self bits rorg func type direction command
  = select_data profile bits direction command.
Proof.
  intros Hinit Hreg. unfold find_profile, registered in *. rewrite Hinit. simpl.
  destruct (telegrams self !! rorg) as [funcs|]; [|discriminate]. simpl in Hreg.
  destruct (funcs !! func) as [types|]; [|discriminate]. simpl in Hreg.
  rewrite Hreg. reflexivity.
Qed.

Lemma truth_nonzero (c : Z) : c <> 0 -> truth (Some c) = true.
Proof. intros Hc. unfold truth. destruct (Z.eqb_spec c 0); [contradiction|reflexivity]. Qed.

(** C1, as the code has it.  For a profile without command discriminator and
    an explicit command other than 0, the resolver returns the first variant
    in declaration order whatever the requested direction, and nothing when
    the profile has no variant. *)
Theorem find_profile_command_no_discriminator (self : EEP) (bits : list bool)
    (rorg func type c : Z) (direction : option Z) (profile : Element) :
  init_ok self = true ->
  registered self rorg func type = Some profile ->
  ET.find profile "command" = None ->
  c <> 0 ->
  (forall v, first_such variant (ET.children profile) v ->
             find_profile self bits rorg func type direction (Some c) = Ok (Some v))
  /\ (none_such variant (ET.children profile) ->
      find_profile self bits rorg func type direction (Some c) = Ok None).
Proof.
  intros Hinit Hreg Hcmd Hc.
  rewrite (find_profile_registered _ _ _ _ _ _ _ _ Hinit Hreg).
  unfold select_data. rewrite Hcmd, (truth_nonzero c Hc). split.
  - intros v Hv. unfold ET.find. f_equal. apply find_first_such, Hv.
  - intros Hnone. unfold ET.find. f_equal. apply find_none_such, Hnone.
Qed.

Lemma find_profile_command_no_discriminator_witness :
  find_profile Ex.catalogue [] 0xA5 0x20 0x01 (Some 2) (Some 1)
  = Ok (Some Ex.variant_dir1).
Proof.
  destruct (find_profile_command_no_discriminator Ex.catalogue [] 0xA5 0x20 0x01 1
              (Some 2) Ex.two_way) as [Hfirst _];
    [reflexivity | reflexivity | reflexivity | lia |].
  apply Hfirst.
  exists [], [Ex.variant_dir2]. split; [reflexivity|]. split; [reflexivity|constructor].
Defined.

(** C1 as stated fails: the profile has a variant for direction 2, the
    caller asks for direction 2 with the command 1, and the resolver returns
    the variant declared first, which is the one for direction 1. *)
Lemma explicit_command_ignores_direction :
  ET.find Ex.two_way "command" = None
  /\ first_such (variant_with "direction" "2") (ET.children Ex.two_way) Ex.variant_dir2
  /\ find_profile Ex.catalogue [] 0xA5 0x20 0x01 (Some 2) (Some 1)
     = Ok (Some Ex.variant_dir1)
  /\ ET.get Ex.variant_dir1 "direction" = Some "1".
Proof.
  split; [reflexivity|]. split; [|split; reflexivity].
  exists [Ex.variant_dir1], []. repeat split. constructor; [reflexivity|constructor].
Qed.

(** C2, as the code has it.  For a profile with a command discriminator and
    an explicit command other than 0, the resolver returns the first variant
    whose [command] attribute is the decimal text of the command, and
    nothing when no variant has it. *)
Theorem find_profile_explicit_command (self : EEP) (bits : list bool)
    (rorg func type c : Z) (direction : option Z) (profile eep_command : Element) :
  init_ok self = true ->
  registered self rorg func type = Some profile ->
  ET.find profile "command" = Some eep_command ->
  c <> 0 ->
  (forall v,
      first_such (variant_with "command" (Py.str_of_int c)) (ET.children profile) v ->
      find_profile self bits rorg func type direction (Some c) = Ok (Some v))
  /\ (none_such (variant_with "command" (Py.str_of_int c)) (ET.children profile) ->
      find_profile self bits rorg func type direction (Some c) = Ok None).
Proof.
  intros Hinit Hreg Hcmd Hc.
  rewrite (find_profile_registered _ _ _ _ _ _ _ _ Hinit Hreg).
  unfold select_data. rewrite Hcmd, (truth_nonzero c Hc). cbn [percent_s]. split.
  - intros v Hv. unfold ET.find_attr. f_equal. apply find_first_such, Hv.
  - intros Hnone. unfold ET.find_attr. f_equal. apply find_none_such, Hnone.
Qed.

Lemma find_profile_explicit_command_witness :
  find_profile Ex.catalogue [] 0xA5 0x38 0x08 None (Some 2)
  = Ok (Some (Ex.variant_cmd "2")).
Proof.
  destruct (find_profile_explicit_command Ex.catalogue [] 0xA5 0x38 0x08 2 None
              Ex.commanded Ex.command_field) as [Hfirst _];
    [reflexivity | reflexivity | reflexivity | lia |].
  apply Hfirst.
  exists [Ex.command_field; Ex.variant_cmd "1"], [Ex.variant_cmd "3"].
  split; [reflexivity|]. split; [reflexivity|]. repeat constructor.
Defined.

(** C2 as stated fails for the command 0: no variant of the profile has the
    command 0, and the resolver does not return nothing, it returns the
    variant declared first. *)
Lemma explicit_command_zero_falls_back :
  ET.find Ex.commanded "command" = Some Ex.command_field
  /\ none_such (variant_with "command" (Py.str_of_int 0)) (ET.children Ex.commanded)
  /\ find_profile Ex.catalogue Ex.bits_cmd9 0xA5 0x38 0x08 None (Some 0)
     = Ok (Some (Ex.variant_cmd "1")).
Proof.
  split; [reflexivity|]. split; [|reflexivity].
  repeat constructor.
Qed.

(** C3, as the code has it.  For a profile with a command discriminator
    that lies inside the data bits and no explicit command, the resolver
    takes the unsigned integer spelled by the [size] bits at [offset], most
    significant first, and returns the first variant whose [command]
    attribute is the decimal text of that integer; when no variant has it,
    it returns the variant declared first. *)
Theorem find_profile_decoded_command (self : EEP) (bits : list bool)
    (rorg func type offset size : Z) (direction : option Z)
    (profile eep_command : Element) :
  init_ok self = true ->
  registered self rorg func type = Some profile ->
  ET.find profile "command" = Some eep_command ->
  Py.int_of (ET.get eep_command "offset") = Ok offset ->
  Py.int_of (ET.get eep_command "size") = Ok size ->
  0 <= offset ->
  1 <= size ->
  offset + size <= Z.of_nat (length bits) ->
  let raw := bits_value (take (Z.to_nat size) (drop (Z.to_nat offset) bits)) in
  (forall v,
      first_such (variant_with "command" (Py.str_of_int raw)) (ET.children profile) v ->
      find_profile self bits rorg func type direction None = Ok (Some v))
  /\ (none_such (variant_with "command" (Py.str_of_int raw)) (ET.children profile) ->
      (forall v, first_such variant (ET.children profile) v ->
                 find_profile self bits rorg func type direction None = Ok (Some v))
      /\ (none_such variant (ET.children profile) ->
          find_profile self bits rorg func type direction None = Ok None)).
Proof.
  intros Hinit Hreg Hcmd Ho Hs Hoff Hsize Hlen raw.
  pose proof (get_raw_in_range eep_command bits offset size Ho Hs Hoff Hsize Hlen)
    as Hraw. fold raw in Hraw.
  rewrite (find_profile_registered _ _ _ _ _ _ _ _ Hinit Hreg).
  unfold select_data. rewrite Hcmd, Hraw. cbn [truth bind]. unfold ET.find_attr.
  split; [|intros Hnone; split].
  - intros v Hv. apply find_first_such in Hv. unfold variant_with in Hv.
    rewrite Hv. reflexivity.
  - intros v Hv. apply find_none_such in Hnone. unfold variant_with in Hnone.
    rewrite Hnone. unfold ET.find. f_equal. apply find_first_such, Hv.
  - intros Hnov. apply find_none_such in Hnone. unfold variant_with in Hnone.
    rewrite Hnone. unfold ET.find. f_equal. apply find_none_such, Hnov.
Qed.

Lemma find_profile_decoded_command_witness :
  find_profile Ex.catalogue Ex.bits_cmd3 0xA5 0x38 0x08 None None
  = Ok (Some (Ex.variant_cmd "3")).
Proof.
  destruct (find_profile_decoded_command Ex.catalogue Ex.bits_cmd3 0xA5 0x38 0x08 0 4
              None Ex.commanded Ex.command_field) as [Hfirst _];
    [reflexivity | reflexivity | reflexivity | reflexivity | reflexivity
    | lia | lia | simpl; lia |].
  apply Hfirst.
  exists [Ex.command_field; Ex.variant_cmd "1"; Ex.variant_cmd "2"], [].
  split; [reflexivity|]. split; [reflexivity|]. repeat constructor.
Defined.

(** C3 as stated fails: the bits spell 3 and the second variant declares the
    command 3, written 03; the attribute is compared as text with the
    decimal text of the raw value, so the resolver does not return that
    variant, it falls back to the variant declared first. *)
Lemma decoded_command_compared_as_text :
  ET.find Ex3.padded "command" = Some Ex.command_field
  /\ _get_raw Ex.command_field Ex.bits_cmd3 = Ok 3
  /\ ET.children Ex3.padded = [Ex.command_field; Ex.variant_cmd "1"; Ex3.variant_03]
  /\ variant Ex3.variant_03 = true
  /\ Py.int_of (ET.get Ex3.variant_03 "command") = Ok 3
  /\ find_profile Ex3.catalogue Ex.bits_cmd3 0xA5 0x38 0x09 None None
     = Ok (Some (Ex.variant_cmd "1")).
Proof. repeat split; reflexivity. Qed.

(** The resolver scenario of the specification: the explicit command 2, the
    decoded command 3, and the decoded command 9 that no variant has. *)
Example resolver_priority :
  find_profile Ex.catalogue [] 0xA5 0x38 0x08 None (Some 2)
  = Ok (Some (Ex.variant_cmd "2"))
  /\ find_profile Ex.catalogue Ex.bits_cmd3 0xA5 0x38 0x08 None None
     = Ok (Some (Ex.variant_cmd "3"))
  /\ find_profile Ex.catalogue Ex.bits_cmd9 0xA5 0x38 0x08 None None
     = Ok (Some (Ex.variant_cmd "1")).
Proof. repeat split; reflexivity. Qed.

(** Without a discriminator the command 0 leaves the choice to the
    direction. *)
Example command_zero_follows_direction :
  find_profile Ex.catalogue [] 0xA5 0x20 0x01 (Some 2) (Some 0)
  = Ok (Some Ex.variant_dir2)
  /\ find_profile Ex.catalogue [] 0xA5 0x20 0x01 (Some 3) (Some 0) = Ok None.
Proof. split; reflexivity. Qed.

(** C10.  An explicit command equal to 0 is resolved as no command at all:
    the explicit-command branch is taken for commands other than 0 only. *)
Theorem find_profile_command_zero (self : EEP) (bits : list bool)
    (rorg func type : Z) (direction : option Z) :
  find_profile self bits rorg func type direction (Some 0)
  = find_profile self bits rorg func type direction None.
Proof.
  unfold find_profile.
  destruct (negb (init_ok self)); [reflexivity|].
  destruct (telegrams self !! rorg) as [funcs|]; [|reflexivity].
  destruct (funcs !! func) as [types|]; [|reflexivity].
  destruct (types !! type) as [profile|]; [|reflexivity].
  unfold select_data. cbn [truth Z.eqb negb]. reflexivity.
Qed.

(** ** The decode path *)

Lemma bind_Ok {A B : Type} (c : result A) (k : A -> result B) (b : B) :
  bind c k = Ok b -> exists a, c = Ok a /\ k a = Ok b.
Proof. destruct c as [a|e]; simpl; [eauto | discriminate]. Qed.

(** The value of a numeric field is the linear rescale of its raw value. *)
Lemma get_value_rescale (source range scale range_min range_max scale_min scale_max : Element)
    (bits : list bool) (raw : Z) (rng_min rng_max scl_min scl_max : float) :
  _get_raw source bits = Ok raw ->
  0 <= raw < 2 ^ 63 ->
  ET.find source "range" = Some range ->
  ET.find range "min" = Some range_min ->
  ET.find range "max" = Some range_max ->
  ET.find source "scale" = Some scale ->
  ET.find scale "min" = Some scale_min ->
  ET.find scale "max" = Some scale_max ->
  Py.float_of (ET.text range_min) = Ok rng_min ->
  Py.float_of (ET.text range_max) = Ok rng_max ->
  Py.float_of (ET.text scale_min) = Ok scl_min ->
  Py.float_of (ET.text scale_max) = Ok scl_max ->
  PrimFloat.eqb (rng_max - rng_min) 0 = false ->
  _get_value source bits
  = Ok (ET.get source "shortcut",
        {| description := ET.get source "description";
           unit := ET.get source "unit";
           value_of := VFloat (linear_rescale scl_min scl_max rng_min rng_max
                                 (PrimFloat.of_uint63 (Uint63.of_Z raw)));
           raw_value_of := raw |}).
Proof.
  intros Hraw Hrange Hr Hrmin Hrmax Hs Hsmin Hsmax Hf1 Hf2 Hf3 Hf4 Hnz.
  unfold _get_value, find_text. rewrite Hraw, Hr, Hs. cbn [bind].
  rewrite Hrmin, Hrmax, Hsmin, Hsmax. cbn [bind].
  rewrite Hf1, Hf2, Hf3, Hf4. cbn [bind].
  unfold Py.float_div. rewrite Hnz. cbn [bind].
  unfold Py.float_of_int.
  destruct (Z.leb_spec 0 raw); [|lia].
  destruct (Z.ltb_spec raw (2 ^ 63)); [|lia].
  reflexivity.
Qed.

(** C7, as the code has it.  For the field at offset 0 of size 8 with range
    0 to 255 and scale -40.0 to 0.0, the byte 0xFF (raw 255) decodes to 0.0
    and the byte 0x00 (raw 0) decodes to -40.0; both values are the linear
    rescale of the raw value. *)
Theorem temperature_scenario :
  _get_value Ex.temperature Ex.ones8
  = Ok (Some "TMP",
        {| description := Some "Temperature"; unit := Some "C";
           value_of := VFloat (linear_rescale (-40) 0 0 255 255);
           raw_value_of := 255 |})
  /\ linear_rescale (-40) 0 0 255 255 = 0%float
  /\ _get_value Ex.temperature Ex.zeros8
     = Ok (Some "TMP",
           {| description := Some "Temperature"; unit := Some "C";
              value_of := VFloat (linear_rescale (-40) 0 0 255 0);
              raw_value_of := 0 |})
  /\ linear_rescale (-40) 0 0 255 0 = (-40)%float.
Proof. repeat split; vm_compute; reflexivity. Qed.

(** C7 as stated fails: the byte 0xFF decodes to 0.0, which is not close to
    -40.0. *)
Lemma temperature_255_is_not_minus_40 :
  exists e,
    _get_value Ex.temperature Ex.ones8 = Ok (Some "TMP", e)
    /\ raw_value_of e = 255
    /\ value_of e = VFloat 0
    /\ close_to 0 (-40) = false.
Proof. eexists. repeat split; vm_compute; reflexivity. Qed.

Lemma in_range_inclusive (raw start stop : Z) :
  Py.in_range raw start (stop + 1) = true <-> start <= raw <= stop.
Proof. unfold Py.in_range. rewrite andb_true_iff, Z.leb_le, Z.ltb_lt. lia. Qed.

Lemma get_rangeitem_loop_none (raw : Z) (l : list Element) :
  no_rangeitem raw l ->
  _get_rangeitem_loop (List.filter (ET.has_tag "rangeitem") l) raw = Ok None.
Proof.
  induction 1 as [|y l Hy _ IH]; [reflexivity|].
  cbn [List.filter]. destruct (ET.has_tag "rangeitem" y); [|exact IH].
  destruct (Hy eq_refl) as (start & stop & Hstart & Hstop & Hout).
  cbn [_get_rangeitem_loop]. rewrite Hstart, Hstop. cbn [bind].
  destruct (Py.in_range raw start (stop + 1)) eqn:Hin; [|exact IH].
  apply in_range_inclusive in Hin. contradiction.
Qed.

Lemma get_rangeitem_first (source : Element) (raw : Z) (x : Element) :
  first_rangeitem raw (ET.children source) x ->
  _get_rangeitem source raw = Ok (Some x).
Proof.
  intros (before & after & Hl & Htag & (start & stop & Hstart & Hstop & Hin) & Hbefore).
  unfold _get_rangeitem, ET.findall. rewrite Hl. clear Hl.
  induction Hbefore as [|y before Hy _ IH].
  - cbn [app List.filter]. rewrite Htag. cbn [_get_rangeitem_loop].
    rewrite Hstart, Hstop. cbn [bind].
    apply in_range_inclusive in Hin. rewrite Hin. reflexivity.
  - cbn [app List.filter]. destruct (ET.has_tag "rangeitem" y) eqn:Hty; [|exact IH].
    destruct (Hy eq_refl) as (s & e & Hs & He & Hout).
    cbn [_get_rangeitem_loop]. rewrite Hs, He. cbn [bind].
    destruct (Py.in_range raw s (e + 1)) eqn:Hr; [|exact IH].
    apply in_range_inclusive in Hr. contradiction.
Qed.

Lemma get_rangeitem_none (source : Element) (raw : Z) :
  no_rangeitem raw (ET.children source) ->
  _get_rangeitem source raw = Ok None.
Proof. apply get_rangeitem_loop_none. Qed.

Lemma get_rangeitem_loop_Some (raw : Z) (l : list Element) (x : Element) :
  _get_rangeitem_loop (List.filter (ET.has_tag "rangeitem") l) raw = Ok (Some x) ->
  first_rangeitem raw l x.
Proof.
  induction l as [|y l IH]; [discriminate|].
  cbn [List.filter]. destruct (ET.has_tag "rangeitem" y) eqn:Hty.
  - cbn [_get_rangeitem_loop]. intros H.
    apply bind_Ok in H as (start & Hstart & H).
    apply bind_Ok in H as (stop & Hstop & H).
    destruct (Py.in_range raw start (stop + 1)) eqn:Hin.
    + injection H as <-. apply in_range_inclusive in Hin.
      exists [], l. split; [reflexivity|]. split; [exact Hty|].
      split; [exists start, stop; auto | constructor].
    + destruct (IH H) as (before & after & -> & Htag & Hx & Hbefore).
      exists (y :: before), after. split; [reflexivity|]. split; [exact Htag|].
      split; [exact Hx|]. constructor; [|exact Hbefore].
      intros _. exists start, stop. split; [exact Hstart|]. split; [exact Hstop|].
      intros Hc. apply in_range_inclusive in Hc. congruence.
  - intros H. destruct (IH H) as (before & after & -> & Htag & Hx & Hbefore).
    exists (y :: before), after. split; [reflexivity|]. split; [exact Htag|].
    split; [exact Hx|]. constructor; [congruence | exact Hbefore].
Qed.

(** C8, as the code has it.  For an enumerated field whose raw value is
    [raw]: the first item whose [value] attribute is the decimal text of
    [raw] gives the value, its description with [raw] substituted for the
    placeholder; without such an item, the first range item whose inclusive
    interval contains [raw] gives it; when nothing matches, decoding raises
    an error.  No value is produced in any other way: a decoded value always
    comes from the matched item or range item. *)
Theorem get_enum_lookup (source : Element) (bits : list bool) (raw : Z) :
  _get_raw source bits = Ok raw ->
  (forall item text,
      first_such (item_with raw) (ET.children source) item ->
      Py.format (ET.get item "description") raw = Ok text ->
      _get_enum source bits
      = Ok (ET.get source "shortcut",
            {| description := ET.get source "description";
               unit := Some (ET.get_default source "unit" "");
               value_of := VStr text;
               raw_value_of := raw |}))
  /\ (none_such (item_with raw) (ET.children source) ->
      (forall rangeitem text,
          first_rangeitem raw (ET.children source) rangeitem ->
          Py.format (ET.get rangeitem "description") raw = Ok text ->
          _get_enum source bits
          = Ok (ET.get source "shortcut",
                {| description := ET.get source "description";
                   unit := Some (ET.get_default source "unit" "");
                   value_of := VStr text;
                   raw_value_of := raw |}))
      /\ (no_rangeitem raw (ET.children source) ->
          _get_enum source bits = Raise AttributeError))
  /\ (forall k e,
      _get_enum source bits = Ok (k, e) ->
      exists x text,
        (first_such (item_with raw) (ET.children source) x
         \/ (none_such (item_with raw) (ET.children source)
             /\ first_rangeitem raw (ET.children source) x))
        /\ Py.format (ET.get x "description") raw = Ok text
        /\ value_of e = VStr text
        /\ raw_value_of e = raw).
Proof.
  intros Hraw. unfold _get_enum, ET.find_attr. rewrite Hraw. cbn [bind].
  split; [|split; [intros Hnone; split|]].
  - intros item text Hitem Htext. apply find_first_such in Hitem.
    unfold item_with in Hitem. rewrite Hitem. cbn [bind]. rewrite Htext. reflexivity.
  - intros rangeitem text Hri Htext. apply find_none_such in Hnone.
    unfold item_with in Hnone. rewrite Hnone.
    rewrite (get_rangeitem_first _ _ _ Hri). cbn [bind]. rewrite Htext. reflexivity.
  - intros Hnori. apply find_none_such in Hnone.
    unfold item_with in Hnone. rewrite Hnone.
    rewrite (get_rangeitem_none _ _ Hnori). reflexivity.
  - intros k e H.
    destruct (List.find (ET.has_tag_attr "item" "value" (Py.str_of_int raw))
                (ET.children source)) as [item|] eqn:Hfind.
    + cbn [bind] in H. apply bind_Ok in H as (text & Htext & [= <- <-]).
      exists item, text. split; [left; apply find_Some_first_such, Hfind|].
      repeat split. exact Htext.
    + apply bind_Ok in H as ([x|] & Hri & H); [|discriminate].
      apply bind_Ok in H as (text & Htext & [= <- <-]).
      exists x, text. split.
      * right. split; [apply find_None_none_such, Hfind|].
        apply get_rangeitem_loop_Some, Hri.
      * repeat split. exact Htext.
Qed.

Lemma get_enum_lookup_witness :
  _get_enum Ex.level Ex.byte7
  = Ok (Some "LVL",
        {| description := None; unit := Some ""; value_of := VStr "Mid 7";
           raw_value_of := 7 |}).
Proof.
  destruct (get_enum_lookup Ex.level Ex.byte7 7 eq_refl) as (_ & Hranges & _).
  destruct Hranges as [Hfirst _].
  - repeat constructor.
  - apply (Hfirst Ex.mid_range "Mid 7"); [|reflexivity].
    exists [Ex.open_item], []. split; [reflexivity|]. split; [reflexivity|]. split.
    + exists 6, 10. split; [reflexivity|]. split; [reflexivity|]. lia.
    + constructor; [discriminate | constructor].
Defined.

(** C8 as stated fails: the raw value is 7 and the item declares the value
    7, written 07; the attribute is compared as text with the decimal text
    of the raw value, so the item is not found and decoding raises. *)
Lemma enum_value_compared_as_text :
  _get_raw Ex3.padded_enum Ex.byte7 = Ok 7
  /\ ET.children Ex3.padded_enum = [Ex3.item_07]
  /\ ET.has_tag "item" Ex3.item_07 = true
  /\ Py.int_of (ET.get Ex3.item_07 "value") = Ok 7
  /\ _get_enum Ex3.padded_enum Ex.byte7 = Raise AttributeError.
Proof. repeat split; reflexivity. Qed.

(** The enumeration scenario of the specification: raw 5 has the item
    "Open", raw 7 lies in the range item 6 to 10 and gives "Mid 7", raw 15
    matches nothing. *)
Example enum_scenario :
  (exists e, _get_enum Ex.level Ex.byte5 = Ok (Some "LVL", e)
             /\ value_of e = VStr "Open" /\ raw_value_of e = 5)
  /\ (exists e, _get_enum Ex.level Ex.byte7 = Ok (Some "LVL", e)
                /\ value_of e = VStr "Mid 7" /\ raw_value_of e = 7)
  /\ _get_enum Ex.level Ex.byte15 = Raise AttributeError.
Proof.
  split; [|split]; [eexists; repeat split; vm_compute; reflexivity ..|reflexivity].
Qed.

(** *** Insertion-ordered dictionaries *)

Section OrderedDict.

Implicit Types (k : option string) (v : entry) (od : ordered_dict).

Lemma od_get_set_eq k v od : OD.get k (OD.set k v od) = Some v.
Proof.
  induction od as [|[k' v'] od IH]; cbn [OD.get OD.set];
    repeat (case_decide; cbn [OD.get OD.set]); congruence.
Qed.

Lemma od_get_set_ne k k' v od :
  k <> k' -> OD.get k (OD.set k' v od) = OD.get k od.
Proof.
  intros Hne. induction od as [|[k0 v0] od IH]; cbn [OD.get OD.set];
    repeat (case_decide; cbn [OD.get OD.set]); congruence.
Qed.

Lemma od_keys_set k v od :
  OD.keys (OD.set k v od)
  = if decide (k ∈ OD.keys od) then OD.keys od else OD.keys od ++ [k].
Proof.
  unfold OD.keys. induction od as [|[k' v'] od IH]; cbn [OD.set fmap list_fmap fst].
  - rewrite decide_False; [reflexivity | apply not_elem_of_nil].
  - destruct (decide (k = k')) as [->|Hne]; cbn [fmap list_fmap fst].
    + rewrite decide_True; [reflexivity | apply elem_of_cons; left; reflexivity].
    + change (list_fmap _ _ fst ?l) with (fst <$> l). rewrite IH.
      destruct (decide (k ∈ fst <$> od)) as [Hin|Hnotin].
      * rewrite decide_True; [reflexivity | apply elem_of_cons; right; exact Hin].
      * rewrite decide_False; [reflexivity|].
        intros [Heq|Hin]%elem_of_cons; contradiction.
Qed.

Lemma od_keys_set_NoDup k v od :
  NoDup (OD.keys od) -> NoDup (OD.keys (OD.set k v od)).
Proof.
  intros Hnd. rewrite od_keys_set.
  destruct (decide (k ∈ OD.keys od)) as [Hin|Hnotin]; [exact Hnd|].
  apply NoDup_app. split; [exact Hnd|]. split.
  - intros x Hx [->|Hnil]%elem_of_cons; [contradiction | inversion Hnil].
  - apply NoDup_singleton.
Qed.

(** With distinct keys, a key that is bound has exactly one item. *)
Lemma od_get_unique k v od :
  NoDup (OD.keys od) ->
  OD.get k od = Some v ->
  exists l1 l2,
    od = l1 ++ ((k, v) :: l2) /\ (k ∉ OD.keys l1) /\ (k ∉ OD.keys l2).
Proof.
  unfold OD.keys. induction od as [|[k' v'] od IH]; cbn [OD.get]; [discriminate|].
  intros Hnd Hget. apply NoDup_cons in Hnd as [Hnotin Hnd].
  destruct (decide (k = k')) as [->|Hne].
  - injection Hget as ->. exists [], od.
    split; [reflexivity|]. split; [apply not_elem_of_nil | exact Hnotin].
  - destruct (IH Hnd Hget) as (l1 & l2 & -> & H1 & H2).
    exists ((k', v') :: l1), l2.
    split; [reflexivity|]. split; [|exact H2].
    intros [Heq|Hin]%elem_of_cons; contradiction.
Qed.

End OrderedDict.

(** *** The loop of [get_values] *)

Lemma has_tag_eq (t : string) (e : Element) : ET.has_tag t e = true -> ET.tag e = t.
Proof. apply String.eqb_eq. Qed.

(** A decoded child takes exactly one of the three branches of the loop
    body; any other child is skipped. *)
Lemma get_values_step_field (output : ordered_dict) (source : Element)
    (bits status : list bool) :
  get_values_step output source bits status
  = if is_field source
    then item <- decode_field source bits status ;; Ok (OD.update output item)
    else Ok output.
Proof.
  unfold get_values_step, is_field, decode_field.
  destruct (ET.has_tag "value" source) eqn:Hv;
    destruct (ET.has_tag "enum" source) eqn:He;
    destruct (ET.has_tag "status" source) eqn:Hs;
    repeat match goal with
           | H : ET.has_tag _ source = true |- _ => apply has_tag_eq in H
           end;
    try congruence; cbn [orb bind].
  - destruct (_get_value source bits); reflexivity.
  - destruct (_get_enum source bits); reflexivity.
  - reflexivity.
  - reflexivity.
Qed.

Lemma get_raw_entry_key (source : Element) (bits status : list bool)
    (k : option string) (e : entry) :
  decode_field source bits status = Ok (k, e) -> k = ET.get source "shortcut".
Proof.
  unfold decode_field, _get_value, _get_enum, _get_boolean.
  intros H.
  repeat match type of H with
         | (if ?b then _ else _) = _ => destruct b
         | bind _ _ = Ok _ => apply bind_Ok in H as (? & _ & H)
         | match ?x with _ => _ end = _ => destruct x; [|discriminate]
         end;
    congruence.
Qed.

Lemma get_values_loop_app (l1 l2 : list Element) (bits status : list bool)
    (output : ordered_dict) :
  get_values_loop (l1 ++ l2) bits status output
  = (output' <- get_values_loop l1 bits status output ;;
     get_values_loop l2 bits status output').
Proof.
  revert output. induction l1 as [|x l1 IH]; intros output; [reflexivity|].
  cbn [app get_values_loop].
  destruct (get_values_step output x bits status) as [out1|e]; [|reflexivity].
  cbn [bind]. apply IH.
Qed.

Lemma get_values_loop_NoDup (l : list Element) (bits status : list bool)
    (output output' : ordered_dict) :
  get_values_loop l bits status output = Ok output' ->
  NoDup (OD.keys output) -> NoDup (OD.keys output').
Proof.
  revert output. induction l as [|x l IH]; intros output Hrun Hnd.
  - injection Hrun as <-. exact Hnd.
  - cbn [get_values_loop] in Hrun. apply bind_Ok in Hrun as (out1 & Hstep & Hrun).
    apply (IH _ Hrun). rewrite get_values_step_field in Hstep.
    destruct (is_field x).
    + apply bind_Ok in Hstep as ([k v] & _ & [= <-]). apply od_keys_set_NoDup, Hnd.
    + injection Hstep as <-. exact Hnd.
Qed.

(** Fields with another shortcut leave the entry of [k] alone. *)
Lemma get_values_loop_other_keys (l : list Element) (bits status : list bool)
    (output output' : ordered_dict) (k : option string) :
  get_values_loop l bits status output = Ok output' ->
  Forall (fun later => is_field later = true -> ET.get later "shortcut" <> k) l ->
  OD.get k output' = OD.get k output.
Proof.
  revert output. induction l as [|x l IH]; intros output Hrun Hall.
  - injection Hrun as <-. reflexivity.
  - apply Forall_cons in Hall as [Hx Hall].
    cbn [get_values_loop] in Hrun. apply bind_Ok in Hrun as (out1 & Hstep & Hrun).
    rewrite (IH _ Hrun Hall). rewrite get_values_step_field in Hstep.
    destruct (is_field x).
    + apply bind_Ok in Hstep as ([k' v] & Hdec & [= <-]).
      apply get_raw_entry_key in Hdec. unfold OD.update. cbn [fst snd].
      apply od_get_set_ne. intros ->. apply (Hx eq_refl). symmetry. exact Hdec.
    + injection Hstep as <-. reflexivity.
Qed.

(** The loop raises the error of the first field that cannot be
    converted. *)
Lemma get_values_loop_raises (before after : list Element) (field : Element)
    (bits status : list bool) (e : exn) :
  Forall (fun f => is_field f = true -> is_ok (decode_field f bits status) = true) before ->
  is_field field = true ->
  decode_field field bits status = Raise e ->
  forall output, get_values_loop (before ++ field :: after) bits status output = Raise e.
Proof.
  intros Hbefore Hfield Hdec.
  induction Hbefore as [|x before Hx _ IH]; intros output.
  - cbn [app get_values_loop]. rewrite get_values_step_field, Hfield, Hdec. reflexivity.
  - cbn [app get_values_loop]. rewrite get_values_step_field.
    destruct (is_field x); cbn [bind]; [|apply IH].
    specialize (Hx eq_refl). destruct (decode_field x bits status); [|discriminate].
    cbn [bind]. apply IH.
Qed.

(** C6, as the code has it.  In the batch decode path a conversion failure
    on one field aborts the decode: when the fields before it convert, the
    error of the failing field is raised by [get_values], and no entry is
    returned, whatever fields follow. *)
Theorem get_values_aborts_on_failure (self : EEP) (profile : Element)
    (bits status : list bool) (before after : list Element) (field : Element)
    (e : exn) :
  init_ok self = true ->
  ET.children profile = before ++ field :: after ->
  Forall (fun f => is_field f = true -> is_ok (decode_field f bits status) = true) before ->
  is_field field = true ->
  decode_field field bits status = Raise e ->
  get_values self (Some profile) bits status = Raise e.
Proof.
  intros Hinit Hchildren Hbefore Hfield Hdec.
  unfold get_values. rewrite Hinit, Hchildren. cbn [negb].
  rewrite (get_values_loop_raises before after field bits status e Hbefore Hfield Hdec).
  reflexivity.
Qed.

Lemma get_values_aborts_on_failure_witness :
  get_values Ex.catalogue (Some Ex.broken_first) Ex.ones8 [true; false]
  = Raise ZeroDivisionError.
Proof.
  apply (get_values_aborts_on_failure Ex.catalogue Ex.broken_first Ex.ones8
           [true; false] [] [Ex.flag_a] Ex.degenerate ZeroDivisionError);
    first [reflexivity | constructor].
Defined.

(** C6 as stated fails: the numeric field with a degenerate range cannot be
    converted, the status flag after it can, and [get_values] returns no
    entry for the flag, it raises the error of the numeric field. *)
Lemma decode_stops_at_failed_field :
  ET.children Ex.broken_first = [Ex.degenerate; Ex.flag_a]
  /\ decode_field Ex.degenerate Ex.ones8 [true; false] = Raise ZeroDivisionError
  /\ is_ok (decode_field Ex.flag_a Ex.ones8 [true; false]) = true
  /\ get_values Ex.catalogue (Some Ex.broken_first) Ex.ones8 [true; false]
     = Raise ZeroDivisionError.
Proof. repeat split; vm_compute; reflexivity. Qed.

(** C9.  When decoding succeeds, the result has exactly one entry for the
    shortcut of a field, and it holds the value of the last field with that
    shortcut in declaration order, however many fields before it share the
    shortcut. *)
Theorem get_values_last_duplicate_wins (self : EEP) (profile : Element)
    (bits status : list bool) (keys : list (option string)) (output : ordered_dict)
    (before after : list Element) (field : Element) (k : option string) (e : entry) :
  init_ok self = true ->
  get_values self (Some profile) bits status = Ok (keys, output) ->
  ET.children profile = before ++ field :: after ->
  is_field field = true ->
  decode_field field bits status = Ok (k, e) ->
  Forall (fun later => is_field later = true -> ET.get later "shortcut" <> k) after ->
  keys = OD.keys output
  /\ exists l1 l2,
       output = l1 ++ ((k, e) :: l2) /\ (k ∉ OD.keys l1) /\ (k ∉ OD.keys l2).
Proof.
  intros Hinit Hrun Hchildren Hfield Hdec Hlater.
  unfold get_values in Hrun. rewrite Hinit, Hchildren in Hrun. cbn [negb] in Hrun.
  apply bind_Ok in Hrun as (out & Hloop & [= <- <-]).
  split; [reflexivity|].
  apply od_get_unique.
  - apply (get_values_loop_NoDup _ _ _ _ _ Hloop). apply NoDup_nil_2.
  - rewrite get_values_loop_app in Hloop.
    apply bind_Ok in Hloop as (out1 & _ & Hloop).
    cbn [get_values_loop] in Hloop.
    apply bind_Ok in Hloop as (out2 & Hstep & Hloop).
    rewrite (get_values_loop_other_keys _ _ _ _ _ k Hloop Hlater).
    rewrite get_values_step_field, Hfield, Hdec in Hstep.
    injection Hstep as <-. apply od_get_set_eq.
Qed.

Lemma get_values_last_duplicate_wins_witness :
  [Some "X"] = OD.keys
    [(Some "X", {| description := Some "second"; unit := Some "";
                   value_of := VBool false; raw_value_of := 0 |})]
  /\ exists l1 l2,
       [(Some "X", {| description := Some "second"; unit := Some "";
                      value_of := VBool false; raw_value_of := 0 |})]
       = l1 ++ ((Some "X", {| description := Some "second"; unit := Some "";
                              value_of := VBool false; raw_value_of := 0 |}) :: l2)
       /\ (Some "X" ∉ OD.keys l1) /\ (Some "X" ∉ OD.keys l2).
Proof.
  apply (get_values_last_duplicate_wins Ex.catalogue Ex.twice [] [true; false]
           [Some "X"] _ [Ex.flag_a] [] Ex.flag_b (Some "X"));
    first [reflexivity | constructor].
Defined.

(** The duplicate-shortcut scenario of the specification: both flags are
    named X, the first reads 1 and the second reads 0, and the result has
    the single entry of the second. *)
Example duplicate_shortcut_scenario :
  get_values Ex.catalogue (Some Ex.twice) [] [true; false]
  = Ok ([Some "X"],
        [(Some "X", {| description := Some "second"; unit := Some "";
                       value_of := VBool false; raw_value_of := 0 |})]).
Proof. reflexivity. Qed.

(** * Further properties *)

(** ** The bitfield codec, beyond the round trip *)

Lemma bits_value_bounds (digits : list bool) :
  0 <= bits_value digits < 2 ^ Z.of_nat (length digits).
Proof.
  induction digits as [|d digits IH] using rev_ind.
  - unfold bits_value. simpl. lia.
  - rewrite bits_value_snoc, length_app. cbn [length].
    replace (Z.of_nat (length digits + 1)) with (Z.succ (Z.of_nat (length digits))) by lia.
    rewrite Z.pow_succ_r by lia. destruct d; simpl; lia.
Qed.

Lemma slice_length {A : Type} (l : list A) (start size : Z) :
  0 <= size ->
  Z.of_nat (length (Py.slice l start (start + size))) <= size.
Proof.
  intros Hsize. unfold Py.slice. rewrite length_take, length_drop. unfold Py.clamp.
  destruct (Z.ltb_spec start 0); destruct (Z.ltb_spec (start + size) 0); lia.
Qed.

(** X1.  A raw value read from a field of [size >= 0] bits is an unsigned
    integer below [2^size], wherever the field lies, also when it is cut
    short by the end of the sequence or starts at a negative offset. *)
Theorem get_raw_bounds (field : Element) (bits : list bool) (size raw : Z) :
  Py.int_of (ET.get field "size") = Ok size ->
  0 <= size ->
  _get_raw field bits = Ok raw ->
  0 <= raw < 2 ^ size.
Proof.
  intros Hs Hsize Hraw. unfold _get_raw in Hraw.
  apply bind_Ok in Hraw as (offset & Ho & Hraw). rewrite Hs in Hraw. cbn [bind] in Hraw.
  pose proof (slice_length bits offset size Hsize) as Hlen.
  destruct (Py.slice bits offset (offset + size)) as [|d digits] eqn:Hslice;
    [discriminate|].
  rewrite int_base2_join in Hraw by discriminate. injection Hraw as <-.
  pose proof (bits_value_bounds (d :: digits)) as Hb.
  assert (Hpow : 2 ^ Z.of_nat (length (d :: digits)) <= 2 ^ size).
  { apply Z.pow_le_mono_r; [lia|]. cbn [length] in *. lia. }
  lia.
Qed.

Lemma get_raw_bounds_witness : 0 <= 3 < 2 ^ 4.
Proof.
  apply (get_raw_bounds Ex.late_field Ex.ones8 4 3); first [reflexivity | lia].
Defined.

(** What a write inside the sequence stores: every position of the field
    holds its bit of the value, every other position is as before. *)
Lemma set_raw_lookup (field : Element) (bits : list bool) (offset size v : Z) :
  Py.int_of (ET.get field "offset") = Ok offset ->
  Py.int_of (ET.get field "size") = Ok size ->
  0 <= offset ->
  offset + size <= Z.of_nat (length bits) ->
  exists bits',
    _set_raw field v bits = (bits', None)
    /\ length bits' = length bits
    /\ forall i : nat,
         bits' !! i
         = if decide (offset <= Z.of_nat i < offset + size)
           then Some (written_bit v size (Z.of_nat i - offset))
           else bits !! i.
Proof.
  intros Ho Hs Hoff Hlen.
  destruct (set_raw_loop_in_range offset size v (Py.range size) Hoff bits)
    as (bits' & Hrun & Hl & Hout & Hin).
  { apply Forall_forall. intros d Hd. apply range_spec in Hd. lia. }
  exists bits'. split; [unfold _set_raw; rewrite Ho, Hs; exact Hrun|].
  split; [exact Hl|]. intros i. case_decide as Hi.
  - replace i with (Z.to_nat (offset + (Z.of_nat i - offset))) at 1 by lia.
    apply Hin; [apply range_NoDup | apply range_spec; lia].
  - apply Hout. apply Forall_forall. intros d Hd. apply range_spec in Hd. lia.
Qed.

(** Two sequences that agree on the positions of a field give the same raw
    value. *)
Lemma get_raw_agree (field : Element) (bits bits' : list bool) (offset size : Z) :
  Py.int_of (ET.get field "offset") = Ok offset ->
  Py.int_of (ET.get field "size") = Ok size ->
  0 <= offset ->
  1 <= size ->
  offset + size <= Z.of_nat (length bits) ->
  length bits' = length bits ->
  (forall i : nat, offset <= Z.of_nat i < offset + size -> bits' !! i = bits !! i) ->
  _get_raw field bits' = _get_raw field bits.
Proof.
  intros Ho Hs Hoff Hsize Hlen Hl Hsame.
  rewrite (get_raw_in_range field bits offset size) by assumption.
  rewrite (get_raw_in_range field bits' offset size) by (try assumption; lia).
  do 2 f_equal. apply list_eq. intros i.
  destruct (decide (i < Z.to_nat size)%nat) as [Hi|Hi].
  - rewrite !lookup_take_lt, !lookup_drop by exact Hi. apply Hsame. lia.
  - rewrite !lookup_take_ge by lia. reflexivity.
Qed.

Lemma set_raw_then_get_raw (field : Element) (bits : list bool) (offset size v : Z) :
  Py.int_of (ET.get field "offset") = Ok offset ->
  Py.int_of (ET.get field "size") = Ok size ->
  0 <= offset ->
  1 <= size ->
  offset + size <= Z.of_nat (length bits) ->
  exists bits',
    _set_raw field v bits = (bits', None)
    /\ _get_raw field bits' = Ok (v mod 2 ^ size).
Proof.
  intros Ho Hs Hoff Hsize Hlen.
  destruct (set_raw_lookup field bits offset size v Ho Hs Hoff Hlen)
    as (bits1 & Hrun1 & Hl1 & Hlook1).
  exists bits1. split; [exact Hrun1|].
  rewrite (get_raw_in_range field bits1 offset size) by (try assumption; lia).
  f_equal.
  assert (Hmod : 0 <= v mod 2 ^ size < 2 ^ Z.of_nat (Z.to_nat size)).
  { rewrite Z2Nat.id by lia. apply Z.mod_pos_bound, Z.pow_pos_nonneg; lia. }
  rewrite <- (bits_value_testbits (Z.to_nat size) (v mod 2 ^ size) Hmod).
  f_equal. rewrite Z2Nat.id by lia. apply list_eq. intros i.
  destruct (decide (i < Z.to_nat size)%nat) as [Hi|Hi].
  - rewrite lookup_take_lt, lookup_drop, list_lookup_fmap by exact Hi.
    rewrite range_lookup by exact Hi. cbn [fmap option_fmap option_map].
    rewrite Hlook1, decide_True by lia.
    rewrite written_bit_testbit by lia. f_equal.
    rewrite Z.mod_pow2_bits_low by lia. f_equal. lia.
  - rewrite lookup_take_ge by lia. symmetry. apply lookup_ge_None.
    unfold Py.range. rewrite !length_fmap, length_seq. lia.
Qed.

(** X2.  A write keeps the [size] low-order bits of any integer, negative
    or too large: reading the field back gives the value modulo [2^size]. *)
Theorem set_raw_truncates (field : Element) (bits : list bool) (offset size v : Z) :
  Py.int_of (ET.get field "offset") = Ok offset ->
  Py.int_of (ET.get field "size") = Ok size ->
  0 <= offset ->
  1 <= size ->
  offset + size <= Z.of_nat (length bits) ->
  exists bits',
    _set_raw field v bits = (bits', None)
    /\ _get_raw field bits' = Ok (v mod 2 ^ size).
Proof. apply set_raw_then_get_raw. Qed.

Lemma set_raw_truncates_witness :
  exists bits',
    _set_raw Ex.inner_field (-1) Ex.zeros8 = (bits', None)
    /\ _get_raw Ex.inner_field bits' = Ok ((-1) mod 2 ^ 4).
Proof.
  apply (set_raw_truncates Ex.inner_field Ex.zeros8 2 4 (-1));
    first [reflexivity | simpl; lia].
Defined.

(** X3.  The last write wins: writing a field twice leaves the sequence as
    the second write alone would. *)
Theorem set_raw_overwrites (field : Element) (bits : list bool)
    (offset size v1 v2 : Z) :
  Py.int_of (ET.get field "offset") = Ok offset ->
  Py.int_of (ET.get field "size") = Ok size ->
  0 <= offset ->
  offset + size <= Z.of_nat (length bits) ->
  _set_raw field v2 (_set_raw field v1 bits).1 = _set_raw field v2 bits.
Proof.
  intros Ho Hs Hoff Hlen.
  destruct (set_raw_lookup field bits offset size v1 Ho Hs Hoff Hlen)
    as (b1 & -> & Hl1 & Hlook1). cbn [fst].
  destruct (set_raw_lookup field bits offset size v2 Ho Hs Hoff Hlen)
    as (b2 & -> & Hl2 & Hlook2).
  destruct (set_raw_lookup field b1 offset size v2 Ho Hs Hoff ltac:(lia))
    as (b12 & -> & Hl12 & Hlook12).
  f_equal. apply list_eq. intros i.
  rewrite Hlook12, Hlook2, Hlook1. case_decide; reflexivity.
Qed.

Lemma set_raw_overwrites_witness :
  _set_raw Ex.inner_field 5 (_set_raw Ex.inner_field 9 Ex.zeros8).1
  = _set_raw Ex.inner_field 5 Ex.zeros8.
Proof.
  apply (set_raw_overwrites Ex.inner_field Ex.zeros8 2 4 9 5);
    first [reflexivity | simpl; lia].
Defined.

(** X4.  Writes to two fields that do not overlap commute. *)
Theorem set_raw_disjoint_commute (a b : Element) (bits : list bool)
    (offset_a size_a offset_b size_b va vb : Z) :
  Py.int_of (ET.get a "offset") = Ok offset_a ->
  Py.int_of (ET.get a "size") = Ok size_a ->
  Py.int_of (ET.get b "offset") = Ok offset_b ->
  Py.int_of (ET.get b "size") = Ok size_b ->
  0 <= offset_a -> offset_a + size_a <= Z.of_nat (length bits) ->
  0 <= offset_b -> offset_b + size_b <= Z.of_nat (length bits) ->
  offset_a + size_a <= offset_b \/ offset_b + size_b <= offset_a ->
  _set_raw b vb (_set_raw a va bits).1 = _set_raw a va (_set_raw b vb bits).1.
Proof.
  intros Hoa Hsa Hob Hsb Ha0 Ha Hb0 Hb Hdisj.
  destruct (set_raw_lookup a bits offset_a size_a va Hoa Hsa Ha0 Ha)
    as (ba & -> & Hla & Hlooka).
  destruct (set_raw_lookup b bits offset_b size_b vb Hob Hsb Hb0 Hb)
    as (bb & -> & Hlb & Hlookb). cbn [fst].
  destruct (set_raw_lookup b ba offset_b size_b vb Hob Hsb Hb0 ltac:(lia))
    as (bab & -> & Hlab & Hlookab).
  destruct (set_raw_lookup a bb offset_a size_a va Hoa Hsa Ha0 ltac:(lia))
    as (bba & -> & Hlba & Hlookba).
  f_equal. apply list_eq. intros i.
  rewrite Hlookab, Hlookba, Hlooka, Hlookb.
  repeat case_decide; first [reflexivity | lia].
Qed.

Lemma set_raw_disjoint_commute_witness :
  _set_raw Ex.late_field 3 (_set_raw Ex.inner_field 9 (replicate 16 false)).1
  = _set_raw Ex.inner_field 9 (_set_raw Ex.late_field 3 (replicate 16 false)).1.
Proof.
  apply (set_raw_disjoint_commute Ex.inner_field Ex.late_field (replicate 16 false)
           2 4 6 4 9 3); first [reflexivity | simpl; lia].
Defined.

(** X5.  A write to one field does not change the raw value read from a
    field that does not overlap it. *)
Theorem get_raw_after_disjoint_write (a b : Element) (bits : list bool)
    (offset_a size_a offset_b size_b vb : Z) :
  Py.int_of (ET.get a "offset") = Ok offset_a ->
  Py.int_of (ET.get a "size") = Ok size_a ->
  Py.int_of (ET.get b "offset") = Ok offset_b ->
  Py.int_of (ET.get b "size") = Ok size_b ->
  0 <= offset_a -> 1 <= size_a -> offset_a + size_a <= Z.of_nat (length bits) ->
  0 <= offset_b -> offset_b + size_b <= Z.of_nat (length bits) ->
  offset_a + size_a <= offset_b \/ offset_b + size_b <= offset_a ->
  _get_raw a (_set_raw b vb bits).1 = _get_raw a bits.
Proof.
  intros Hoa Hsa Hob Hsb Ha0 Ha1 Ha Hb0 Hb Hdisj.
  destruct (set_raw_lookup b bits offset_b size_b vb Hob Hsb Hb0 Hb)
    as (bb & -> & Hlb & Hlookb). cbn [fst].
  apply (get_raw_agree a bits bb offset_a size_a); try assumption.
  intros i Hi. rewrite Hlookb. case_decide; [lia | reflexivity].
Qed.

Lemma get_raw_after_disjoint_write_witness :
  _get_raw Ex.inner_field (_set_raw Ex.late_field 3 (replicate 16 true)).1
  = _get_raw Ex.inner_field (replicate 16 true).
Proof.
  apply (get_raw_after_disjoint_write Ex.inner_field Ex.late_field
           (replicate 16 true) 2 4 6 4 3); first [reflexivity | simpl; lia].
Defined.

Lemma setitem_length {A : Type} (l l' : list A) (i : Z) (x : A) :
  Py.setitem l i x = Ok l' -> length l' = length l.
Proof.
  unfold Py.setitem. destruct (_ && _); [|discriminate].
  intros [= <-]. apply length_insert.
Qed.

Lemma setitem_error {A : Type} (l : list A) (i : Z) (x : A) (e : exn) :
  Py.setitem l i x = Raise e -> e = IndexError.
Proof.
  unfold Py.setitem. destruct (_ && _); [discriminate|]. congruence.
Qed.

(** The loop never changes the length, and the only exception it raises is
    [IndexError]. *)
Lemma set_raw_loop_outcome (offset size raw_value : Z) (digits : list Z)
    (bits : list bool) :
  length (_set_raw_loop offset size raw_value digits bits).1 = length bits
  /\ ((_set_raw_loop offset size raw_value digits bits).2 = None
      \/ (_set_raw_loop offset size raw_value digits bits).2 = Some IndexError).
Proof.
  revert bits. induction digits as [|d digits IH]; intros bits; cbn [_set_raw_loop].
  - split; [reflexivity | left; reflexivity].
  - destruct (Py.setitem bits (offset + d) (written_bit raw_value size d))
      as [bits'|e] eqn:Hset.
    + destruct (IH bits') as [Hlen Herr]. apply setitem_length in Hset. split; [lia|].
      exact Herr.
    + apply setitem_error in Hset as ->. split; [reflexivity | right; reflexivity].
Qed.

Lemma set_raw_length (target : Element) (raw_value : Z) (bits : list bool) :
  length (_set_raw target raw_value bits).1 = length bits.
Proof.
  unfold _set_raw.
  destruct (Py.int_of (ET.get target "offset")); [|reflexivity].
  destruct (Py.int_of (ET.get target "size")); [|reflexivity].
  apply set_raw_loop_outcome.
Qed.

(** A write that raises anything but [IndexError] has not touched the
    sequence. *)
Lemma set_raw_untouched (target : Element) (raw_value : Z) (bits : list bool) (e : exn) :
  (_set_raw target raw_value bits).2 = Some e ->
  e <> IndexError ->
  (_set_raw target raw_value bits).1 = bits.
Proof.
  unfold _set_raw.
  destruct (Py.int_of (ET.get target "offset")) as [offset|]; [|reflexivity].
  destruct (Py.int_of (ET.get target "size")) as [size|]; [|reflexivity].
  intros He Hne.
  destruct (set_raw_loop_outcome offset size raw_value (Py.range size) bits)
    as [_ [Hnone|Hidx]]; congruence.
Qed.

Lemma set_raw_loop_app (offset size raw_value : Z) (l1 l2 : list Z) (bits : list bool) :
  _set_raw_loop offset size raw_value (l1 ++ l2) bits
  = match _set_raw_loop offset size raw_value l1 bits with
    | (bits1, None) => _set_raw_loop offset size raw_value l2 bits1
    | (bits1, Some e) => (bits1, Some e)
    end.
Proof.
  revert bits. induction l1 as [|d l1 IH]; intros bits; [reflexivity|].
  cbn [app _set_raw_loop].
  destruct (Py.setitem bits (offset + d) (written_bit raw_value size d));
    [apply IH | reflexivity].
Qed.

(** X6.  A write is not atomic: when the field starts inside the sequence
    and runs past its end, the bits up to the end are stored before
    [IndexError] is raised, and the positions before the field are as
    before. *)
Theorem set_raw_partial_write (field : Element) (bits : list bool)
    (offset size v : Z) :
  Py.int_of (ET.get field "offset") = Ok offset ->
  Py.int_of (ET.get field "size") = Ok size ->
  0 <= offset <= Z.of_nat (length bits) ->
  Z.of_nat (length bits) < offset + size ->
  exists bits',
    _set_raw field v bits = (bits', Some IndexError)
    /\ length bits' = length bits
    /\ forall i : nat,
         bits' !! i
         = if decide (offset <= Z.of_nat i < Z.of_nat (length bits))
           then Some (written_bit v size (Z.of_nat i - offset))
           else bits !! i.
Proof.
  intros Ho Hs Hoff Hlen.
  set (d := Z.of_nat (length bits) - offset).
  destruct (range_split size d ltac:(lia)) as [rest Hrange].
  destruct (set_raw_loop_in_range offset size v (Py.range d) ltac:(lia) bits)
    as (bits' & Hrun & Hl & Hout & Hin).
  { apply Forall_forall. intros x Hx. apply range_spec in Hx. lia. }
  exists bits'. split; [|split; [exact Hl|]].
  - unfold _set_raw. rewrite Ho, Hs, Hrange, set_raw_loop_app, Hrun.
    cbn [_set_raw_loop]. rewrite setitem_past_end by lia. reflexivity.
  - intros i. case_decide as Hi.
    + replace i with (Z.to_nat (offset + (Z.of_nat i - offset))) at 1 by lia.
      apply Hin; [apply range_NoDup | apply range_spec; lia].
    + apply Hout. apply Forall_forall. intros x Hx. apply range_spec in Hx. lia.
Qed.

Lemma set_raw_partial_write_witness :
  exists bits',
    _set_raw Ex.late_field 5 Ex.zeros8 = (bits', Some IndexError)
    /\ length bits' = length Ex.zeros8
    /\ forall i : nat,
         bits' !! i
         = if decide (6 <= Z.of_nat i < Z.of_nat (length Ex.zeros8))
           then Some (written_bit 5 4 (Z.of_nat i - 6))
           else Ex.zeros8 !! i.
Proof.
  apply (set_raw_partial_write Ex.late_field Ex.zeros8 6 4 5);
    first [reflexivity | simpl; lia].
Defined.

(** ** The resolver, beyond the command rules *)

(** X7.  Without command discriminator and without command (no command, or
    the command 0), the direction decides: no direction gives the variant
    declared first; a direction gives the first variant whose [direction]
    attribute is its decimal text, and nothing when no variant has it. *)
Theorem find_profile_by_direction (self : EEP) (bits : list bool)
    (rorg func type : Z) (command : option Z) (profile : Element) :
  init_ok self = true ->
  registered self rorg func type = Some profile ->
  ET.find profile "command" = None ->
  truth command = false ->
  ((forall v, first_such variant (ET.children profile) v ->
              find_profile self bits rorg func type None command = Ok (Some v))
   /\ (none_such variant (ET.children profile) ->
       find_profile self bits rorg func type None command = Ok None))
  /\ forall d,
       (forall v,
           first_such (variant_with "direction" (Py.str_of_int d)) (ET.children profile) v ->
           find_profile self bits rorg func type (Some d) command = Ok (Some v))
       /\ (none_such (variant_with "direction" (Py.str_of_int d)) (ET.children profile) ->
           find_profile self bits rorg func type (Some d) command = Ok None).
Proof.
  intros Hinit Hreg Hcmd Htruth.
  assert (Hsel : forall direction,
             find_profile self bits rorg func type direction command
             = match direction with
               | None => Ok (ET.find profile "data")
               | Some _ => Ok (ET.find_attr profile "data" "direction" (percent_s direction))
               end).
  { intros direction.
    rewrite (find_profile_registered _ _ _ _ _ _ _ _ Hinit Hreg).
    unfold select_data. rewrite Hcmd, Htruth. reflexivity. }
  split; [split|intros d; split].
  - intros v Hv. rewrite Hsel. unfold ET.find. f_equal. apply find_first_such, Hv.
  - intros Hnone. rewrite Hsel. unfold ET.find. f_equal. apply find_none_such, Hnone.
  - intros v Hv. rewrite Hsel. unfold ET.find_attr. cbn [percent_s]. f_equal.
    apply find_first_such, Hv.
  - intros Hnone. rewrite Hsel. unfold ET.find_attr. cbn [percent_s]. f_equal.
    apply find_none_such, Hnone.
Qed.

Lemma find_profile_by_direction_witness :
  find_profile Ex.catalogue [] 0xA5 0x20 0x01 (Some 2) None = Ok (Some Ex.variant_dir2)
  /\ find_profile Ex.catalogue [] 0xA5 0x20 0x01 (Some 3) None = Ok None.
Proof.
  destruct (find_profile_by_direction Ex.catalogue [] 0xA5 0x20 0x01 None Ex.two_way)
    as [_ Hdir]; [reflexivity ..|].
  split.
  - apply (Hdir 2). exists [Ex.variant_dir1], [].
    split; [reflexivity|]. split; [reflexivity|]. repeat constructor.
  - apply (Hdir 3). repeat constructor.
Defined.

Lemma find_profile_absent (self : EEP) (bits : list bool)
    (rorg func type : Z) (direction command : option Z) :
  init_ok self = false \/ registered self rorg func type = None ->
  find_profile self bits rorg func type direction command = Ok None.
Proof.
  unfold find_profile, registered. intros [->|Hreg]; [reflexivity|].
  destruct (negb (init_ok self)); [reflexivity|].
  destruct (telegrams self !! rorg) as [funcs|]; [|reflexivity]. simpl in Hreg.
  destruct (funcs !! func) as [types|]; [|reflexivity]. simpl in Hreg.
  rewrite Hreg. reflexivity.
Qed.

(** X8.  For a triple that is not registered, or when the catalogue was not
    loaded, the resolver returns nothing and raises nothing, whatever the
    bits, the direction and the command. *)
Theorem find_profile_unknown (self : EEP) (bits : list bool)
    (rorg func type : Z) (direction command : option Z) :
  init_ok self = false \/ registered self rorg func type = None ->
  find_profile self bits rorg func type direction command = Ok None.
Proof. apply find_profile_absent. Qed.

Lemma find_profile_unknown_witness :
  find_profile Ex.catalogue Ex.ones8 0xA5 0x20 0x7F (Some 1) (Some 2) = Ok None.
Proof. apply find_profile_unknown. right. reflexivity. Defined.

Lemma find_profile_cases (self : EEP) (bits : list bool)
    (rorg func type : Z) (direction command : option Z) :
  find_profile self bits rorg func type direction command = Ok None
  \/ exists profile,
       init_ok self = true
       /\ registered self rorg func type = Some profile
       /\ find_profile self bits rorg func type direction command
          = select_data profile bits direction command.
Proof.
  destruct (init_ok self) eqn:Hinit;
    [|left; apply find_profile_absent; left; exact Hinit].
  destruct (registered self rorg func type) as [profile|] eqn:Hreg;
    [|left; apply find_profile_absent; right; exact Hreg].
  right. exists profile. split; [reflexivity|]. split; [reflexivity|].
  apply find_profile_registered; assumption.
Qed.

Lemma find_is_child {A : Type} (p : A -> bool) (l : list A) (x : A) :
  List.find p l = Some x -> x ∈ l /\ p x = true.
Proof.
  intros H. apply find_some in H as [Hin Hp]. split; [|exact Hp].
  apply list_elem_of_In, Hin.
Qed.

(** X9.  Whatever the resolver returns is a [data] child of the profile
    registered under the triple: it never returns another element of the
    catalogue, nor a variant of another profile. *)
Theorem find_profile_returns_variant (self : EEP) (bits : list bool)
    (rorg func type : Z) (direction command : option Z) (v : Element) :
  find_profile self bits rorg func type direction command = Ok (Some v) ->
  exists profile,
    init_ok self = true
    /\ registered self rorg func type = Some profile
    /\ v ∈ ET.children profile
    /\ ET.tag v = "data"%string.
Proof.
  intros H.
  destruct (find_profile_cases self bits rorg func type direction command)
    as [Hnone|(profile & Hinit & Hreg & Hsel)]; [congruence|].
  exists profile. split; [exact Hinit|]. split; [exact Hreg|].
  rewrite Hsel in H. unfold select_data, ET.find, ET.find_attr in H.
  assert (Htag : forall t k x, ET.has_tag_attr t k x v = true -> ET.has_tag t v = true)
    by (intros t k x Hx; apply andb_true_iff in Hx as [Hx _]; exact Hx).
  repeat match type of H with
         | (if ?b then _ else _) = _ => destruct b
         | bind _ _ = Ok _ => apply bind_Ok in H as (? & _ & H)
         | match ?x with _ => _ end = _ => destruct x eqn:?
         end;
    injection H as H;
    repeat match goal with
           | Hf : List.find _ _ = Some _ |- _ => apply find_is_child in Hf as [? ?]
           end;
    try discriminate; subst;
    (split; [assumption | apply has_tag_eq; eauto]).
Qed.

Lemma find_profile_returns_variant_witness :
  exists profile,
    init_ok Ex.catalogue = true
    /\ registered Ex.catalogue 0xA5 0x38 0x08 = Some profile
    /\ Ex.variant_cmd "3" ∈ ET.children profile
    /\ ET.tag (Ex.variant_cmd "3") = "data"%string.
Proof.
  apply (find_profile_returns_variant Ex.catalogue Ex.bits_cmd3 0xA5 0x38 0x08 None None).
  reflexivity.
Defined.

(** X10.  The resolver raises only when it has to read the command from the
    bits and that read fails: with an explicit command other than 0, or for
    a profile without discriminator, it never raises. *)
Theorem find_profile_raises_only_on_read (self : EEP) (bits : list bool)
    (rorg func type : Z) (direction command : option Z) (e : exn) :
  find_profile self bits rorg func type direction command = Raise e ->
  exists profile eep_command,
    registered self rorg func type = Some profile
    /\ ET.find profile "command" = Some eep_command
    /\ truth command = false
    /\ _get_raw eep_command bits = Raise e.
Proof.
  intros H.
  destruct (find_profile_cases self bits rorg func type direction command)
    as [Hnone|(profile & Hinit & Hreg & Hsel)]; [congruence|].
  rewrite Hsel in H. unfold select_data in H.
  destruct (truth command) eqn:Htruth.
  - destruct (ET.find profile "command"); discriminate.
  - destruct (ET.find profile "command") as [eep_command|] eqn:Hcmd.
    + exists profile, eep_command. repeat split; try assumption.
      destruct (_get_raw eep_command bits) as [raw|e'] eqn:Hraw.
      * cbn [bind] in H. destruct (ET.find_attr _ _ _ _); discriminate.
      * cbn [bind] in H. congruence.
    + destruct direction; discriminate.
Qed.

Lemma find_profile_raises_only_on_read_witness :
  exists profile eep_command,
    registered Ex.catalogue 0xA5 0x38 0x08 = Some profile
    /\ ET.find profile "command" = Some eep_command
    /\ truth None = false
    /\ _get_raw eep_command [] = Raise ValueError.
Proof.
  apply (find_profile_raises_only_on_read Ex.catalogue [] 0xA5 0x38 0x08 None None).
  reflexivity.
Defined.

(** ** The decode path, beyond duplicates *)

Lemma filter_all {A : Type} (P : A -> Prop) `{!forall x, Decision (P x)} (l : list A) :
  (forall x, P x) -> filter P l = l.
Proof.
  intros HP. induction l as [|x l IH]; [reflexivity|].
  rewrite filter_cons_True by apply HP. rewrite IH. reflexivity.
Qed.

Lemma get_values_loop_keys (l : list Element) (bits status : list bool)
    (output output' : ordered_dict) :
  get_values_loop l bits status output = Ok output' ->
  OD.keys output'
  = OD.keys output
    ++ filter (fun k => k ∉ OD.keys output) (first_occurrences (field_shortcuts l)).
Proof.
  revert output. induction l as [|x l IH]; intros output Hrun.
  - injection Hrun as <-. cbn. rewrite app_nil_r. reflexivity.
  - cbn [get_values_loop] in Hrun. apply bind_Ok in Hrun as (out1 & Hstep & Hrun).
    rewrite (IH _ Hrun). rewrite get_values_step_field in Hstep.
    unfold field_shortcuts. cbn [List.filter].
    destruct (is_field x).
    + apply bind_Ok in Hstep as ([k v] & Hdec & [= <-]).
      apply get_raw_entry_key in Hdec. subst k.
      unfold OD.update. cbn [fst snd fmap list_fmap first_occurrences].
      set (k := ET.get x "shortcut").
      change (list_fmap _ _ ?f ?l) with (f <$> l).
      fold (field_shortcuts l).
      rewrite od_keys_set. destruct (decide (k ∈ OD.keys output)) as [Hin|Hnotin].
      * rewrite filter_cons_False by (intros Hk; apply Hk; exact Hin).
        rewrite list_filter_filter_l; [reflexivity|].
        intros y Hy ->. contradiction.
      * rewrite filter_cons_True by exact Hnotin.
        rewrite list_filter_filter, <- app_assoc. cbn [app]. do 2 f_equal.
        apply list_filter_iff. intros y. rewrite not_elem_of_app, list_elem_of_singleton.
        reflexivity.
    + injection Hstep as <-. reflexivity.
Qed.

(** X11.  The keys of a decoded variant are the distinct shortcuts of its
    fields, each at the place of its first declaration: a later field with
    the same shortcut changes the entry, not the order; children that are
    not fields add no key. *)
Theorem get_values_keys_order (self : EEP) (profile : Element)
    (bits status : list bool) (keys : list (option string)) (output : ordered_dict) :
  init_ok self = true ->
  get_values self (Some profile) bits status = Ok (keys, output) ->
  keys = first_occurrences (field_shortcuts (ET.children profile)).
Proof.
  intros Hinit Hrun. unfold get_values in Hrun. rewrite Hinit in Hrun.
  cbn [negb] in Hrun. apply bind_Ok in Hrun as (out & Hloop & [= <- <-]).
  rewrite (get_values_loop_keys _ _ _ _ _ Hloop). cbn [OD.keys fmap list_fmap app].
  apply filter_all. intros k. apply not_elem_of_nil.
Qed.

Lemma get_values_keys_order_witness :
  [Some "X"%string] = first_occurrences (field_shortcuts (ET.children Ex.twice)).
Proof.
  apply (get_values_keys_order Ex.catalogue Ex.twice [] [true; false] [Some "X"%string]
           [(Some "X"%string,
             {| description := Some "second"%string; unit := Some ""%string;
                value_of := VBool false; raw_value_of := 0 |})]);
    reflexivity.
Defined.

Lemma od_keys_elem (od : ordered_dict) (k : option string) (v : entry) :
  (k, v) ∈ od -> k ∈ OD.keys od.
Proof.
  intros Hin. unfold OD.keys. apply list_elem_of_fmap. exists (k, v). auto.
Qed.

Lemma od_get_elem (od : ordered_dict) (k : option string) (v : entry) :
  NoDup (OD.keys od) -> (k, v) ∈ od -> OD.get k od = Some v.
Proof.
  unfold OD.keys. induction od as [|[k' v'] od IH]; intros Hnd Hin.
  - inversion Hin.
  - cbn [fmap list_fmap fst] in Hnd. apply NoDup_cons in Hnd as [Hnotin Hnd].
    cbn [OD.get]. apply elem_of_cons in Hin as [[= -> ->]|Hin].
    + rewrite decide_True by reflexivity. reflexivity.
    + destruct (decide (k = k')) as [->|Hne]; [|exact (IH Hnd Hin)].
      exfalso. apply Hnotin. apply (od_keys_elem od k' v Hin).
Qed.

(** A list with an element that satisfies [p] splits at the last such
    element. *)
Lemma split_at_last {A : Type} (p : A -> bool) (l : list A) :
  (exists x, x ∈ l /\ p x = true) ->
  exists before x after,
    l = before ++ x :: after /\ p x = true /\ Forall (fun y => p y = false) after.
Proof.
  induction l as [|y l IH] using rev_ind.
  - intros (x & Hx & _). inversion Hx.
  - intros (x & Hx & Hp). destruct (p y) eqn:Hy.
    + exists l, y, []. split; [reflexivity|]. split; [exact Hy | constructor].
    + apply elem_of_app in Hx as [Hx|Hx]; [|apply list_elem_of_singleton in Hx; congruence].
      destruct IH as (before & z & after & -> & Hz & Hafter); [eauto|].
      exists before, z, (after ++ [y]). split; [rewrite <- app_assoc; reflexivity|].
      split; [exact Hz|]. apply Forall_app. split; [exact Hafter|].
      constructor; [exact Hy | constructor].
Qed.

(** Every key of the result is the shortcut of a field. *)
Lemma get_values_loop_key_origin (l : list Element) (bits status : list bool)
    (output output' : ordered_dict) (k : option string) :
  get_values_loop l bits status output = Ok output' ->
  k ∈ OD.keys output' ->
  k ∈ OD.keys output
  \/ exists field, field ∈ l /\ is_field field = true /\ ET.get field "shortcut" = k.
Proof.
  intros Hrun Hk. rewrite (get_values_loop_keys _ _ _ _ _ Hrun) in Hk.
  apply elem_of_app in Hk as [Hk|Hk]; [left; exact Hk|right].
  apply list_elem_of_filter in Hk as [_ Hk].
  assert (Hsub : forall s, k ∈ first_occurrences s -> k ∈ s).
  { induction s as [|x s IHs]; cbn [first_occurrences]; [trivial|].
    intros [->|Hin]%elem_of_cons; [left|right].
    apply list_elem_of_filter in Hin as [_ Hin]. exact (IHs Hin). }
  apply Hsub in Hk. unfold field_shortcuts in Hk.
  apply list_elem_of_fmap in Hk as (field & -> & Hfield).
  apply list_elem_of_In, filter_In in Hfield as [Hin Hf].
  exists field. split; [apply list_elem_of_In, Hin|]. split; [exact Hf | reflexivity].
Qed.

(** X12.  Every entry of a decoded variant is the item of a field of the
    variant, the last one declared with that shortcut: the result holds
    nothing else. *)
Theorem get_values_entries_from_fields (self : EEP) (profile : Element)
    (bits status : list bool) (keys : list (option string)) (output : ordered_dict)
    (k : option string) (e : entry) :
  init_ok self = true ->
  get_values self (Some profile) bits status = Ok (keys, output) ->
  (k, e) ∈ output ->
  exists before field after,
    ET.children profile = before ++ field :: after
    /\ is_field field = true
    /\ decode_field field bits status = Ok (k, e)
    /\ Forall (fun later => is_field later = true -> ET.get later "shortcut" <> k) after.
Proof.
  intros Hinit Hrun Hin. unfold get_values in Hrun. rewrite Hinit in Hrun.
  cbn [negb] in Hrun. apply bind_Ok in Hrun as (out & Hloop & [= <- <-]).
  assert (Hnd : NoDup (OD.keys out))
    by (apply (get_values_loop_NoDup _ _ _ _ _ Hloop), NoDup_nil_2).
  pose proof (od_get_elem out k e Hnd Hin) as Hget.
  destruct (get_values_loop_key_origin _ _ _ _ _ k Hloop (od_keys_elem out k e Hin))
    as [Hnil|(field0 & Hf0 & Hfield0 & Hkey0)]; [inversion Hnil|].
  set (p := fun f => is_field f && bool_decide (ET.get f "shortcut" = k)).
  destruct (split_at_last p (ET.children profile))
    as (before & field & after & Hsplit & Hp & Hafter).
  { exists field0. split; [exact Hf0|]. unfold p. rewrite Hfield0. cbn [andb].
    apply bool_decide_eq_true. exact Hkey0. }
  unfold p in Hp. apply andb_true_iff in Hp as [Hfield Hkey].
  apply bool_decide_eq_true in Hkey.
  assert (Hlater : Forall (fun later => is_field later = true ->
                                        ET.get later "shortcut" <> k) after).
  { eapply Forall_impl; [exact Hafter|]. intros y Hy Hfy Hky. unfold p in Hy.
    rewrite Hfy in Hy. cbn [andb] in Hy. apply bool_decide_eq_false in Hy. contradiction. }
  exists before, field, after. split; [exact Hsplit|]. split; [exact Hfield|].
  split; [|exact Hlater].
  rewrite Hsplit, get_values_loop_app in Hloop.
  apply bind_Ok in Hloop as (out1 & _ & Hloop). cbn [get_values_loop] in Hloop.
  apply bind_Ok in Hloop as (out2 & Hstep & Hloop).
  rewrite (get_values_loop_other_keys _ _ _ _ _ k Hloop Hlater) in Hget.
  rewrite get_values_step_field, Hfield in Hstep.
  apply bind_Ok in Hstep as ([k' e'] & Hdec & [= <-]).
  pose proof (get_raw_entry_key _ _ _ _ _ Hdec) as Hk'. rewrite Hkey in Hk'. subst k'.
  unfold OD.update in Hget. cbn [fst snd] in Hget. rewrite od_get_set_eq in Hget.
  injection Hget as <-. exact Hdec.
Qed.

Lemma get_values_entries_from_fields_witness :
  exists before field after,
    ET.children Ex.twice = before ++ field :: after
    /\ is_field field = true
    /\ decode_field field [] [true; false]
       = Ok (Some "X"%string,
             {| description := Some "second"%string; unit := Some ""%string;
                value_of := VBool false; raw_value_of := 0 |})
    /\ Forall (fun later => is_field later = true ->
                            ET.get later "shortcut" <> Some "X"%string) after.
Proof.
  apply (get_values_entries_from_fields Ex.catalogue Ex.twice [] [true; false]
           [Some "X"%string]
           [(Some "X"%string,
             {| description := Some "second"%string; unit := Some ""%string;
                value_of := VBool false; raw_value_of := 0 |})]);
    first [reflexivity | apply list_elem_of_singleton; reflexivity].
Defined.

(** ** Status bits *)

Lemma take_one_drop {A : Type} (l : list A) (n : nat) (x : A) :
  l !! n = Some x -> take 1 (drop n l) = [x].
Proof.
  intros Hx. pose proof (lookup_drop l n 0) as Hd.
  rewrite Nat.add_0_r, Hx in Hd.
  destruct (drop n l) as [|y rest]; [discriminate|].
  injection Hd as ->. reflexivity.
Qed.

Lemma get_raw_one_bit (target : Element) (status : list bool) (offset : Z) (b : bool) :
  Py.int_of (ET.get target "offset") = Ok offset ->
  Py.int_of (ET.get target "size") = Ok 1 ->
  0 <= offset ->
  status !! Z.to_nat offset = Some b ->
  _get_raw target status = Ok (Z.b2z b).
Proof.
  intros Ho Hs Hoff Hb.
  assert (Hlt : (Z.to_nat offset < length status)%nat)
    by (apply lookup_lt_is_Some; eauto).
  rewrite (get_raw_in_range target status offset 1) by (try assumption; lia).
  change (Z.to_nat 1) with 1%nat. rewrite (take_one_drop _ _ _ Hb).
  destruct b; reflexivity.
Qed.

Lemma get_boolean_one_bit (target : Element) (status : list bool)
    (offset : Z) (b : bool) :
  Py.int_of (ET.get target "offset") = Ok offset ->
  Py.int_of (ET.get target "size") = Ok 1 ->
  0 <= offset ->
  status !! Z.to_nat offset = Some b ->
  _get_boolean target status
  = Ok (ET.get target "shortcut",
        {| description := ET.get target "description";
           unit := Some (ET.get_default target "unit" "");
           value_of := VBool b;
           raw_value_of := Z.b2z b |}).
Proof.
  intros Ho Hs Hoff Hb. unfold _get_boolean.
  rewrite (get_raw_one_bit target status offset b Ho Hs Hoff Hb). cbn [bind].
  destruct b; reflexivity.
Qed.

(** X13.  A status field of one bit decodes to the bit at its offset: the
    value is that bit and the raw value is 1 or 0. *)
Theorem get_boolean_reads_bit (target : Element) (status : list bool)
    (offset : Z) (b : bool) :
  Py.int_of (ET.get target "offset") = Ok offset ->
  Py.int_of (ET.get target "size") = Ok 1 ->
  0 <= offset ->
  status !! Z.to_nat offset = Some b ->
  _get_boolean target status
  = Ok (ET.get target "shortcut",
        {| description := ET.get target "description";
           unit := Some (ET.get_default target "unit" "");
           value_of := VBool b;
           raw_value_of := Z.b2z b |}).
Proof. apply get_boolean_one_bit. Qed.

Lemma get_boolean_reads_bit_witness :
  _get_boolean Ex.flag_b [true; false]
  = Ok (ET.get Ex.flag_b "shortcut",
        {| description := ET.get Ex.flag_b "description";
           unit := Some (ET.get_default Ex.flag_b "unit" "");
           value_of := VBool false;
           raw_value_of := Z.b2z false |}).
Proof.
  apply (get_boolean_reads_bit Ex.flag_b [true; false] 1 false);
    first [reflexivity | lia].
Defined.

Lemma set_boolean_then_get_boolean (target : Element) (status : list bool)
    (offset : Z) (data : pyval) :
  Py.int_of (ET.get target "offset") = Ok offset ->
  Py.int_of (ET.get target "size") = Ok 1 ->
  0 <= offset < Z.of_nat (length status) ->
  exists status',
    _set_boolean target data status = (status', None)
    /\ _get_boolean target status'
       = Ok (ET.get target "shortcut",
             {| description := ET.get target "description";
                unit := Some (ET.get_default target "unit" "");
                value_of := VBool (PyVal.truth data);
                raw_value_of := Z.b2z (PyVal.truth data) |})
    /\ length status' = length status
    /\ forall i : nat, Z.of_nat i <> offset -> status' !! i = status !! i.
Proof.
  intros Ho Hs Hoff.
  exists (<[Z.to_nat offset := PyVal.truth data]> status).
  split; [|split; [|split]].
  - unfold _set_boolean. rewrite Ho, setitem_in_range by lia. reflexivity.
  - apply (get_boolean_one_bit _ _ offset); [assumption | assumption | lia |].
    apply list_lookup_insert_eq. lia.
  - apply length_insert.
  - intros i Hi. apply list_lookup_insert_ne. lia.
Qed.

(** X14.  Round trip of a status bit: after [_set_boolean] stores a datum at
    an offset inside the sequence, [_get_boolean] on a one-bit field at that
    offset gives the truth value of the datum, and the other bits are as
    before. *)
Theorem set_boolean_get_boolean (target : Element) (status : list bool)
    (offset : Z) (data : pyval) :
  Py.int_of (ET.get target "offset") = Ok offset ->
  Py.int_of (ET.get target "size") = Ok 1 ->
  0 <= offset < Z.of_nat (length status) ->
  exists status',
    _set_boolean target data status = (status', None)
    /\ _get_boolean target status'
       = Ok (ET.get target "shortcut",
             {| description := ET.get target "description";
                unit := Some (ET.get_default target "unit" "");
                value_of := VBool (PyVal.truth data);
                raw_value_of := Z.b2z (PyVal.truth data) |})
    /\ length status' = length status
    /\ forall i : nat, Z.of_nat i <> offset -> status' !! i = status !! i.
Proof. apply set_boolean_then_get_boolean. Qed.

Lemma set_boolean_get_boolean_witness :
  exists status',
    _set_boolean Ex.flag_b (PInt 7) [false; false] = (status', None)
    /\ _get_boolean Ex.flag_b status'
       = Ok (ET.get Ex.flag_b "shortcut",
             {| description := ET.get Ex.flag_b "description";
                unit := Some (ET.get_default Ex.flag_b "unit" "");
                value_of := VBool (PyVal.truth (PInt 7));
                raw_value_of := Z.b2z (PyVal.truth (PInt 7)) |})
    /\ length status' = length [false; false]
    /\ forall i : nat, Z.of_nat i <> 1 -> status' !! i = [false; false] !! i.
Proof.
  apply (set_boolean_get_boolean Ex.flag_b [false; false] 1 (PInt 7));
    first [reflexivity | simpl; lia].
Defined.

(** ** The encode path *)

Lemma set_value_outcome (target : Element) (value : pyval) (bits : list bool) :
  length (_set_value target value bits).1 = length bits
  /\ forall e, (_set_value target value bits).2 = Some e -> e <> IndexError ->
               (_set_value target value bits).1 = bits.
Proof.
  unfold _set_value. destruct (_set_value_raw target value) as [raw|e'].
  - split; [apply set_raw_length | apply set_raw_untouched].
  - split; reflexivity.
Qed.

Lemma set_enum_outcome (target : Element) (value : pyval) (bits : list bool) :
  length (_set_enum target value bits).1 = length bits
  /\ forall e, (_set_enum target value bits).2 = Some e -> e <> IndexError ->
               (_set_enum target value bits).1 = bits.
Proof.
  unfold _set_enum. destruct (_set_enum_raw target value) as [raw|e'].
  - split; [apply set_raw_length | apply set_raw_untouched].
  - split; reflexivity.
Qed.

Lemma set_boolean_outcome (target : Element) (data : pyval) (bits : list bool) :
  length (_set_boolean target data bits).1 = length bits
  /\ forall e, (_set_boolean target data bits).2 = Some e ->
               (_set_boolean target data bits).1 = bits.
Proof.
  unfold _set_boolean.
  destruct (Py.int_of (ET.get target "offset")) as [offset|]; [|split; reflexivity].
  destruct (Py.setitem bits offset (PyVal.truth data)) as [bits'|e'] eqn:Hset.
  - split; [apply (setitem_length _ _ _ _ Hset) | discriminate].
  - split; reflexivity.
Qed.

(** X15.  A setter that raises has not touched the bit array, unless the
    exception is [IndexError] (a field that runs past the end, written in
    part); [_set_boolean] never leaves a trace when it raises. *)
Theorem setters_untouched_on_error (target : Element) (value : pyval)
    (bits : list bool) (e : exn) :
  ((_set_value target value bits).2 = Some e -> e <> IndexError ->
   (_set_value target value bits).1 = bits)
  /\ ((_set_enum target value bits).2 = Some e -> e <> IndexError ->
      (_set_enum target value bits).1 = bits)
  /\ ((_set_boolean target value bits).2 = Some e ->
      (_set_boolean target value bits).1 = bits).
Proof.
  split; [apply set_value_outcome|]. split; [apply set_enum_outcome|].
  apply set_boolean_outcome.
Qed.

Lemma setters_untouched_on_error_witness :
  (_set_value Ex.temperature (PStr "hot") Ex.ones8).1 = Ex.ones8
  /\ (_set_enum Ex.level (PInt 11) Ex.ones8).1 = Ex.ones8
  /\ (_set_boolean Ex.flag_b (PBool true) []).1 = [].
Proof.
  split; [|split].
  - destruct (setters_untouched_on_error Ex.temperature (PStr "hot") Ex.ones8 TypeError)
      as (H & _ & _).
    apply H; [reflexivity | discriminate].
  - destruct (setters_untouched_on_error Ex.level (PInt 11) Ex.ones8 ValueError)
      as (_ & H & _).
    apply H; [reflexivity | discriminate].
  - destruct (setters_untouched_on_error Ex.flag_b (PBool true) [] IndexError)
      as (_ & _ & H).
    apply H. reflexivity.
Defined.

(** *** Decimal text of an integer *)





(** *** Enumerations *)

(** What [_get_enum] returns once the raw value and the matching element
    are known. *)
Lemma get_enum_with (source desc : Element) (bits : list bool) (raw : Z) (text : string) :
  _get_raw source bits = Ok raw ->
  first_such (item_with raw) (ET.children source) desc
  \/ (none_such (item_with raw) (ET.children source)
      /\ first_rangeitem raw (ET.children source) desc) ->
  Py.format (ET.get desc "description") raw = Ok text ->
  _get_enum source bits
  = Ok (ET.get source "shortcut",
        {| description := ET.get source "description";
           unit := Some (ET.get_default source "unit" "");
           value_of := VStr text;
           raw_value_of := raw |}).
Proof.
  intros Hraw Hdesc Htext. unfold _get_enum, ET.find_attr. rewrite Hraw. cbn [bind].
  destruct Hdesc as [Hitem|[Hnone Hri]].
  - apply find_first_such in Hitem. unfold item_with in Hitem. rewrite Hitem.
    cbn [bind]. rewrite Htext. reflexivity.
  - apply find_none_such in Hnone. unfold item_with in Hnone. rewrite Hnone.
    rewrite (get_rangeitem_first _ _ _ Hri). cbn [bind]. rewrite Htext. reflexivity.
Qed.

(** X16.  Round trip of an enumeration set by number: when [_set_enum]
    accepts the integer [n] (below [2^size], field inside the sequence), an
    item or range item of the field matches [n], and [_get_enum] on the
    written bits finds that same element: its raw value is [n] and its value
    the description of the element, formatted with [n]. *)
Theorem set_enum_int_get_enum (target : Element) (bits bits' : list bool)
    (offset size n : Z) :
  Py.int_of (ET.get target "offset") = Ok offset ->
  Py.int_of (ET.get target "size") = Ok size ->
  0 <= offset ->
  1 <= size ->
  offset + size <= Z.of_nat (length bits) ->
  0 <= n < 2 ^ size ->
  _set_enum target (PInt n) bits = (bits', None) ->
  exists desc,
    (first_such (item_with n) (ET.children target) desc
     \/ (none_such (item_with n) (ET.children target)
         /\ first_rangeitem n (ET.children target) desc))
    /\ forall text,
         Py.format (ET.get desc "description") n = Ok text ->
         _get_enum target bits'
         = Ok (ET.get target "shortcut",
               {| description := ET.get target "description";
                  unit := Some (ET.get_default target "unit" "");
                  value_of := VStr text;
                  raw_value_of := n |}).
Proof.
  intros Ho Hs Hoff Hsize Hlen Hn Hset.
  unfold _set_enum, _set_enum_raw in Hset. cbn [PyVal.as_int PyVal.percent_s bind] in Hset.
  assert (Hdesc : exists desc,
             first_such (item_with n) (ET.children target) desc
             \/ (none_such (item_with n) (ET.children target)
                 /\ first_rangeitem n (ET.children target) desc)).
  { unfold ET.find_attr in Hset.
    destruct (List.find (ET.has_tag_attr "item" "value" (Py.str_of_int n))
                (ET.children target)) as [item|] eqn:Hfind.
    - exists item. left. apply find_Some_first_such, Hfind.
    - destruct (_get_rangeitem target n) as [[ri|]|e] eqn:Hri;
        cbn [bind] in Hset; [|discriminate..].
      exists ri. right. split; [apply find_None_none_such, Hfind|].
      apply get_rangeitem_loop_Some, Hri. }
  destruct Hdesc as [desc Hdesc]. exists desc. split; [exact Hdesc|].
  intros text Htext.
  assert (Hraw : _set_raw target n bits = (bits', None)).
  { destruct Hdesc as [Hitem|[Hnone Hri]].
    - apply find_first_such in Hitem. unfold item_with in Hitem.
      unfold ET.find_attr in Hset. rewrite Hitem in Hset. exact Hset.
    - apply find_none_such in Hnone. unfold item_with in Hnone.
      unfold ET.find_attr in Hset. rewrite Hnone in Hset.
      rewrite (get_rangeitem_first _ _ _ Hri) in Hset. exact Hset. }
  destruct (set_raw_then_get_raw target bits offset size n Ho Hs Hoff Hsize Hlen)
    as (bits1 & Hrun & Hget).
  rewrite Hraw in Hrun. injection Hrun as <-.
  rewrite Z.mod_small in Hget by exact Hn.
  apply (get_enum_with target desc bits' n text Hget Hdesc Htext).
Qed.

Lemma set_enum_int_get_enum_witness :
  exists desc,
    (first_such (item_with 7) (ET.children Ex.level) desc
     \/ (none_such (item_with 7) (ET.children Ex.level)
         /\ first_rangeitem 7 (ET.children Ex.level) desc))
    /\ forall text,
         Py.format (ET.get desc "description") 7 = Ok text ->
         _get_enum Ex.level Ex.byte7
         = Ok (ET.get Ex.level "shortcut",
               {| description := ET.get Ex.level "description";
                  unit := Some (ET.get_default Ex.level "unit" "");
                  value_of := VStr text;
                  raw_value_of := 7 |}).
Proof.
  apply (set_enum_int_get_enum Ex.level Ex.zeros8 Ex.byte7 0 8 7);
    first [reflexivity | simpl; lia].
Defined.





(** *** [set_values] *)

Lemma status_tag_exclusive (target : Element) :
  ET.has_tag "status" target = true ->
  ET.has_tag "value" target = false /\ ET.has_tag "enum" target = false.
Proof.
  intros Hs. apply has_tag_eq in Hs. unfold ET.has_tag. rewrite Hs.
  split; reflexivity.
Qed.

(** The body of the loop on a found target, by the tag of the target. *)
Lemma set_values_target_by_tag (target : Element) (value : pyval)
    (data status : list bool) :
  set_values_target target value data status
  = if ET.has_tag "value" target then
      let r := _set_value target value data in (r.1, status, r.2)
    else if ET.has_tag "enum" target then
      let r := _set_enum target value data in (r.1, status, r.2)
    else if ET.has_tag "status" target then
      let r := _set_boolean target value status in (data, r.1, r.2)
    else (data, status, None).
Proof.
  unfold set_values_target.
  destruct (ET.has_tag "value" target) eqn:Hv;
    destruct (ET.has_tag "enum" target) eqn:He;
    destruct (ET.has_tag "status" target) eqn:Hs;
    repeat match goal with
           | H : ET.has_tag _ target = true |- _ => apply has_tag_eq in H
           end;
    try congruence; cbn zeta.
  - destruct (_set_value target value data) as [d [e|]]; reflexivity.
  - destruct (_set_enum target value data) as [d [e|]]; reflexivity.
  - destruct (_set_boolean target value status) as [d [e|]]; reflexivity.
Qed.

Lemma set_values_step_lengths (profile : Element) (shortcut : string)
    (value : pyval) (data status : list bool) :
  length (set_values_step profile shortcut value data status).1.1 = length data
  /\ length (set_values_step profile shortcut value data status).1.2 = length status.
Proof.
  unfold set_values_step. destruct (Path.quotable shortcut); [|split; reflexivity].
  destruct (Path.find_below profile "shortcut" shortcut) as [target|];
    [|split; reflexivity].
  rewrite set_values_target_by_tag.
  destruct (ET.has_tag "value" target);
    [cbn; split; [apply set_value_outcome | reflexivity]|].
  destruct (ET.has_tag "enum" target);
    [cbn; split; [apply set_enum_outcome | reflexivity]|].
  destruct (ET.has_tag "status" target);
    [cbn; split; [reflexivity | apply set_boolean_outcome]|].
  split; reflexivity.
Qed.

(** X19.  [set_values] never changes the length of the data array nor of the
    status array, whatever the properties, the catalogue and the outcome,
    an exception included. *)
Theorem set_values_keeps_lengths (self : EEP) (profile : option Element)
    (data status : list bool) (properties : list (string * pyval)) :
  length (set_values self profile data status properties).1.1 = length data
  /\ length (set_values self profile data status properties).1.2 = length status.
Proof.
  unfold set_values. destruct profile as [profile|]; [|split; reflexivity].
  destruct (negb (init_ok self)); [split; reflexivity|].
  revert data status. induction properties as [|[k v] rest IH]; intros data status.
  - split; reflexivity.
  - cbn [set_values_loop].
    pose proof (set_values_step_lengths profile k v data status) as [Hd Hs].
    destruct (set_values_step profile k v data status) as [[d1 s1] [e|]];
      cbn [fst snd] in *; [split; assumption|].
    destruct (IH d1 s1) as [Hd1 Hs1]. split; congruence.
Qed.






Lemma set_values_step_arrays (profile : Element) (k : string) (v : pyval)
    (data status : list bool) :
  ((forall t, Path.find_below profile "shortcut" k = Some t ->
              ET.has_tag "status" t = true) ->
   (set_values_step profile k v data status).1.1 = data)
  /\ ((forall t, Path.find_below profile "shortcut" k = Some t ->
                 ET.has_tag "status" t = false) ->
      (set_values_step profile k v data status).1.2 = status).
Proof.
  unfold set_values_step. destruct (Path.quotable k); [|split; reflexivity].
  destruct (Path.find_below profile "shortcut" k) as [target|]; [|split; reflexivity].
  rewrite set_values_target_by_tag. split; intros Htag; specialize (Htag target eq_refl).
  - destruct (status_tag_exclusive target Htag) as [-> ->]. rewrite Htag. reflexivity.
  - rewrite Htag. destruct (ET.has_tag "value" target); [reflexivity|].
    destruct (ET.has_tag "enum" target); reflexivity.
Qed.

(** X22.  The two arrays are written through separate kinds of field: for
    properties whose shortcuts hold no double quote, when every property
    leads to a status element the data array comes back as it was, and when
    no property leads to a status element the status array comes back as it
    was, also when an exception is raised. *)
Theorem set_values_separate_arrays (self : EEP) (profile : Element)
    (data status : list bool) (properties : list (string * pyval)) :
  Forall (fun property => Path.quotable property.1 = true) properties ->
  (Forall (fun property =>
             forall t, Path.find_below profile "shortcut" property.1 = Some t ->
                       ET.has_tag "status" t = true) properties ->
   (set_values self (Some profile) data status properties).1.1 = data)
  /\ (Forall (fun property =>
                forall t, Path.find_below profile "shortcut" property.1 = Some t ->
                          ET.has_tag "status" t = false) properties ->
      (set_values self (Some profile) data status properties).1.2 = status).
Proof.
  intros _.
  unfold set_values. destruct (negb (init_ok self)); [split; reflexivity|].
  split; intros Hall; revert data status;
    induction Hall as [|[k v] rest Hk _ IH]; intros data status;
    try reflexivity; cbn [set_values_loop]; cbn [fst] in Hk.
  - pose proof (proj1 (set_values_step_arrays profile k v data status) Hk) as Hd.
    destruct (set_values_step profile k v data status) as [[d1 s1] [e|]];
      cbn [fst snd] in *; [exact Hd|]. rewrite IH. exact Hd.
  - pose proof (proj2 (set_values_step_arrays profile k v data status) Hk) as Hs.
    destruct (set_values_step profile k v data status) as [[d1 s1] [e|]];
      cbn [fst snd] in *; [exact Hs|]. rewrite IH. exact Hs.
Qed.

Lemma set_values_separate_arrays_witness :
  (set_values Ex.catalogue (Some Ex3.mixed) Ex.byte5 [false; false]
     [("X"%string, PBool true)]).1.1 = Ex.byte5
  /\ (set_values Ex.catalogue (Some Ex3.mixed) Ex.byte5 [false; false]
        [("TMP"%string, PInt (-20))]).1.2 = [false; false].
Proof.
  split.
  - destruct (set_values_separate_arrays Ex.catalogue Ex3.mixed Ex.byte5 [false; false]
                [("X"%string, PBool true)]) as [Hdata _]; [repeat constructor|].
    apply Hdata. constructor; [|constructor].
    intros t [= <-]. reflexivity.
  - destruct (set_values_separate_arrays Ex.catalogue Ex3.mixed Ex.byte5 [false; false]
                [("TMP"%string, PInt (-20))]) as [_ Hstatus]; [repeat constructor|].
    apply Hstatus. constructor; [|constructor].
    intros t [= <-]. reflexivity.
Defined.



(** X24.  A numeric or enumerated setter writes inside its field only: for a
    field inside the sequence, [_set_value] and [_set_enum] leave every
    position outside [offset, offset + size) as it was, whatever the value
    and whether or not the call raises. *)
Theorem setters_write_inside_field (target : Element) (value : pyval)
    (bits : list bool) (offset size : Z) (i : nat) :
  Py.int_of (ET.get target "offset") = Ok offset ->
  Py.int_of (ET.get target "size") = Ok size ->
  0 <= offset ->
  offset + size <= Z.of_nat (length bits) ->
  Z.of_nat i < offset \/ offset + size <= Z.of_nat i ->
  (_set_value target value bits).1 !! i = bits !! i
  /\ (_set_enum target value bits).1 !! i = bits !! i.
Proof.
  intros Ho Hs Hoff Hlen Hi.
  assert (Hraw : forall raw, (_set_raw target raw bits).1 !! i = bits !! i).
  { intros raw.
    destruct (set_raw_lookup target bits offset size raw Ho Hs Hoff Hlen)
      as (bits' & -> & _ & Hlook).
    cbn [fst]. rewrite Hlook. case_decide; [lia | reflexivity]. }
  unfold _set_value, _set_enum. split.
  - destruct (_set_value_raw target value); [apply Hraw | reflexivity].
  - destruct (_set_enum_raw target value); [apply Hraw | reflexivity].
Qed.

Lemma setters_write_inside_field_witness :
  (_set_value Ex.temperature (PFloat (-20)) (replicate 16 true)).1 !! 9%nat
  = replicate 16 true !! 9%nat
  /\ (_set_enum Ex.temperature (PFloat (-20)) (replicate 16 true)).1 !! 9%nat
     = replicate 16 true !! 9%nat.
Proof.
  apply (setters_write_inside_field Ex.temperature (PFloat (-20)) (replicate 16 true)
           0 8 9); first [reflexivity | simpl; lia].
Defined.

(** ** The registry *)

Section RegistryFacts.

Variable from_hex_string : option string -> result Z.

Lemma find_snoc {A : Type} (p : A -> bool) (l : list A) (x : A) :
  List.find p (l ++ [x])
  = match List.find p l with
    | Some y => Some y
    | None => if p x then Some x else None
    end.
Proof.
  induction l as [|y l IH]; cbn [app List.find]; [destruct (p x); reflexivity|].
  destruct (p y); [reflexivity | exact IH].
Qed.

(** A key of the comprehension is bound to the value of the last element
    that has it; the other keys are as in the dictionary it started from. *)
Lemma comprehension_lookup {V : Type} (attr : string) (value : Element -> result V)
    (l : list Element) (k : Z) :
  forall (acc m : gmap Z V),
  comprehension from_hex_string attr value l acc = Ok m ->
  match last_keyed from_hex_string attr k l with
  | Some x => exists v, value x = Ok v /\ m !! k = Some v
  | None => m !! k = acc !! k
  end.
Proof.
  unfold last_keyed. induction l as [|x l IH]; intros acc m Hrun.
  - injection Hrun as <-. reflexivity.
  - cbn [comprehension] in Hrun.
    apply bind_Ok in Hrun as (k0 & Hk0 & Hrun).
    apply bind_Ok in Hrun as (v0 & Hv0 & Hrun).
    specialize (IH _ _ Hrun). rewrite reverse_cons, find_snoc.
    destruct (List.find (keyed from_hex_string attr k) (reverse l)) as [y|];
      [exact IH|].
    unfold keyed at 1. rewrite Hk0. destruct (Z.eqb_spec k0 k) as [->|Hne].
    + exists v0. split; [exact Hv0|]. rewrite IH. apply lookup_insert_eq.
    + rewrite IH. apply lookup_insert_ne. exact Hne.
Qed.

(** X25.  After the catalogue is loaded, a triple leads to the profile found
    by taking, at each of the three levels, the last element with the key:
    the last [telegram] with the rorg, its last [profiles] with the func,
    and the last [profile] of that one with the type.  An earlier element
    with the same key is replaced as a whole, not merged. *)
Theorem load_xml_last_wins (root : Element) (self : EEP) (rorg func type : Z) :
  __init__ from_hex_string (Some root) = Ok self ->
  init_ok self = true
  /\ registered self rorg func type
     = (telegram ← last_keyed from_hex_string "rorg" rorg (ET.findall root "telegram");
        function ← last_keyed from_hex_string "func" func (ET.findall telegram "profiles");
        last_keyed from_hex_string "type" type (ET.findall function "profile")).
Proof.
  intros Hinit. unfold __init__ in Hinit.
  apply bind_Ok in Hinit as (loaded & Hload & [= <-]).
  split; [reflexivity|]. unfold registered. cbn [telegrams].
  pose proof (comprehension_lookup "rorg" (load_functions from_hex_string)
                (ET.findall root "telegram") rorg _ _ Hload) as H1.
  destruct (last_keyed from_hex_string "rorg" rorg (ET.findall root "telegram"))
    as [telegram|]; cbn [mbind option_bind];
    [|rewrite H1, lookup_empty; reflexivity].
  destruct H1 as (funcs & Hfuncs & ->). cbn [mbind option_bind].
  pose proof (comprehension_lookup "func" (load_types from_hex_string)
                (ET.findall telegram "profiles") func _ _ Hfuncs) as H2.
  destruct (last_keyed from_hex_string "func" func (ET.findall telegram "profiles"))
    as [function|]; cbn [mbind option_bind];
    [|rewrite H2, lookup_empty; reflexivity].
  destruct H2 as (types & Htypes & ->). cbn [mbind option_bind].
  pose proof (comprehension_lookup "type" (fun type => Ok type)
                (ET.findall function "profile") type _ _ Htypes) as H3.
  destruct (last_keyed from_hex_string "type" type (ET.findall function "profile"))
    as [profile|]; [|rewrite H3, lookup_empty; reflexivity].
  destruct H3 as (p & [= <-] & ->). reflexivity.
Qed.

End RegistryFacts.

Lemma load_xml_last_wins_witness :
  init_ok Ex2.loaded = true
  /\ registered Ex2.loaded 0xA5 0x02 0x05 = Some Ex2.profile_new.
Proof.
  destruct (load_xml_last_wins Ex2.hex Ex2.root Ex2.loaded 0xA5 0x02 0x05)
    as [Hok Hreg]; [vm_compute; reflexivity|].
  split; [exact Hok|]. rewrite Hreg. reflexivity.
Defined.

Section RegistryErrors.

Variable from_hex_string : option string -> result Z.

Lemma comprehension_raises {V : Type} (attr : string) (value : Element -> result V)
    (before after : list Element) (x : Element) (e : exn) :
  Forall (fun y => is_ok (from_hex_string (ET.get y attr)) = true
                   /\ is_ok (value y) = true) before ->
  from_hex_string (ET.get x attr) = Raise e ->
  forall acc, comprehension from_hex_string attr value (before ++ x :: after) acc = Raise e.
Proof.
  intros Hbefore Hx. induction Hbefore as [|y before [Hk Hv] _ IH]; intros acc.
  - cbn [app comprehension]. rewrite Hx. reflexivity.
  - cbn [app comprehension].
    destruct (from_hex_string (ET.get y attr)); [|discriminate].
    destruct (value y); [|discriminate]. cbn [bind]. apply IH.
Qed.

(** X26.  The constructor does not catch a failure of [from_hex_string]:
    when the telegrams before it load and the rorg of a telegram cannot be
    converted, the constructor raises that exception; no object with
    [init_ok] false is made. *)
Theorem init_raises_on_bad_rorg (root : Element) (before after : list Element)
    (telegram : Element) (e : exn) :
  ET.findall root "telegram" = before ++ telegram :: after ->
  Forall (fun y => is_ok (from_hex_string (ET.get y "rorg")) = true
                   /\ is_ok (load_functions from_hex_string y) = true) before ->
  from_hex_string (ET.get telegram "rorg") = Raise e ->
  __init__ from_hex_string (Some root) = Raise e.
Proof.
  intros Hl Hbefore Hbad. unfold __init__, __load_xml. rewrite Hl.
  rewrite (comprehension_raises "rorg" _ before after telegram e Hbefore Hbad).
  reflexivity.
Qed.

(** X27.  An object built without catalogue (the parse failed) does nothing
    and raises nothing: the resolver returns nothing, decoding returns no
    key and no entry, encoding returns the two arrays as they were. *)
Theorem init_without_catalogue :
  exists self,
    __init__ from_hex_string None = Ok self
    /\ (forall bits rorg func type direction command,
          find_profile self bits rorg func type direction command = Ok None)
    /\ (forall profile bits status,
          get_values self profile bits status = Ok ([], []))
    /\ (forall profile data status properties,
          set_values self profile data status properties = (data, status, None)).
Proof.
  eexists. split; [reflexivity|]. split; [|split].
  - intros. reflexivity.
  - intros [profile|] bits status; reflexivity.
  - intros [profile|] data status properties; reflexivity.
Qed.

End RegistryErrors.

Lemma init_raises_on_bad_rorg_witness :
  __init__ Ex2.hex (Some Ex2.root_bad) = Raise AttributeError.
Proof.
  apply (init_raises_on_bad_rorg Ex2.hex Ex2.root_bad
           [Ex.node "telegram" [("rorg", "0xA5")] []] []
           (Ex.node "telegram" [] []) AttributeError);
    first [reflexivity | repeat constructor].
Defined.
